(** * Follow-state synchronisation of the maple front end

    A shallow embedding of the follow / unfollow components
    ([components/shared/FollowingQueries.tsx],
    [components/shared/FollowButton.tsx],
    [components/EditProfilePage/FollowingTab.tsx],
    [components/EditProfilePage/FollowersTab.tsx] and the peer-follow
    variant of the followers tab), followed by the properties of the
    follow-state model that hold or fail on it.

    Conventions.
    - A value that may be [undefined] in the source is an [option].
    - The Firestore client is a finite map from (collection path, document
      id) to documents; a write takes effect when it is issued, a query is
      served from the map as it stands when it is issued, and its promise
      is resolved by a later turn of the event loop.
    - Code that runs after an [await] on a query is a [Pending] entry of the
      event loop: the captured variables of the closure are its arguments.
    - Translated text is kept as the key handed to [t]. *)

From Stdlib Require Import Ascii.
From stdpp Require Import base gmap strings list fin_maps pretty.

Open Scope string_scope.

(** ** JavaScript values *)

(** Truthiness, as used by [x ? a : b], [!x], [a || b] and [Boolean(x)]. *)
Class Truthy (A : Type) := truthy : A → bool.
Global Hint Mode Truthy ! : typeclass_instances.

Global Instance truthy_bool : Truthy bool := λ b, b.
Global Instance truthy_string : Truthy string :=
  λ s, match s with EmptyString => false | String _ _ => true end.
Global Instance truthy_option `{Truthy A} : Truthy (option A) :=
  λ o, match o with Some a => truthy a | None => false end.

(** [Boolean(result)] on a string. *)
Definition Boolean (result : string) : bool := truthy result.

(** Interpolation [`${x}`] inside a template literal. *)
Class Interpolate (A : Type) := interpolate : A → string.
Global Hint Mode Interpolate ! : typeclass_instances.

Global Instance interpolate_string : Interpolate string := λ s, s.
(** Numbers are interpolated in decimal; the only number interpolated by
    the source is the court of a bill, a whole number.  JavaScript prints a
    whole number this way as long as it is a safe integer (below 2^53 in
    magnitude; from 10^21 on it would switch to exponent form), so
    properties of every court are stated for safe integers. *)
Global Instance interpolate_number : Interpolate Z := λ n, pretty n.
Global Instance interpolate_option `{Interpolate A} : Interpolate (option A) :=
  λ o, match o with Some a => interpolate a | None => "undefined" end.

(** ** Items ([BillItem], [UserItem]) *)

Record BillItem := mkBillItem { court : Z; billId : string }.
Record UserItem := mkUserItem { profileId : string; fullName : option string }.

Global Instance BillItem_eq_dec : EqDecision BillItem.
Proof. solve_decision. Defined.
Global Instance UserItem_eq_dec : EqDecision UserItem.
Proof. solve_decision. Defined.

(** ** FollowingQueries.tsx over a Firestore model *)

Module FollowingQueries.

(** [type FollowableTopics = "bill" | "testimony"] *)
Inductive FollowableTopics := bill | testimony.

Global Instance FollowableTopics_eq_dec : EqDecision FollowableTopics.
Proof. solve_decision. Defined.

Definition type_name (ty : FollowableTopics) : string :=
  match ty with bill => "bill" | testimony => "testimony" end.

(** The [data] member of [FollowBillData] / [FollowProfileData]. *)
Inductive TopicData :=
| BillData (billLookup : BillItem)
| ProfileData (userLookup : UserItem).

Global Instance TopicData_eq_dec : EqDecision TopicData.
Proof. solve_decision. Defined.

(** [FollowTopicData]: the argument of [followTopic].  The [type] tag and
    the shape of [data] are tied together by the union type of the source,
    so [type] is read off [data]. *)
Record FollowTopicData := mkFollowTopicData {
  uid : option string;
  topicName : string;
  data : TopicData
}.

Global Instance FollowTopicData_eq_dec : EqDecision FollowTopicData.
Proof. solve_decision. Defined.

Definition type (d : FollowTopicData) : FollowableTopics :=
  match data d with BillData _ => bill | ProfileData _ => testimony end.

(** The stored document is [{ ...props, ...data }]: the same fields, with
    [billLookup] / [userLookup] at top level. *)
Definition Doc := FollowTopicData.

Definition billLookup (d : Doc) : option BillItem :=
  match data d with BillData b => Some b | ProfileData _ => None end.
Definition userLookup (d : Doc) : option UserItem :=
  match data d with ProfileData u => Some u | BillData _ => None end.

(** The client's view of Firestore: (collection path, document id) to
    document. *)
Abbreviation Store := (gmap (string * string) Doc).

(** [collection(firestore, `/users/${uid}/activeTopicSubscriptions/`)] *)
Definition setSubscriptionRef (uid : option string) : string :=
  "/users/" +:+ interpolate uid +:+ "/activeTopicSubscriptions/".

Definition setDoc (ref id : string) (d : Doc) (s : Store) : Store :=
  <[(ref, id) := d]> s.
Definition deleteDoc (ref id : string) (s : Store) : Store :=
  delete (ref, id) s.

(** [where(field, "==", value)] on the three fields the source filters. *)
Inductive Where :=
| where_uid (value : string)
| where_type (value : string)
| where_topicName (value : string).

Definition matches (d : Doc) (w : Where) : bool :=
  match w with
  | where_uid v => bool_decide (uid d = Some v)
  | where_type v => bool_decide (type_name (type d) = v)
  | where_topicName v => bool_decide (topicName d = v)
  end.

(** [getDocs(query(ref, ...wheres))]: the documents of collection [ref]
    that satisfy every filter, in the enumeration order of the map.
    Firestore returns them by ascending document id; the properties below
    are stated by membership, or compare two results of the same query. *)
Definition getDocs (ref : string) (wheres : list Where) (s : Store)
  : list Doc :=
  omap (λ kd : string * string * Doc,
          if bool_decide (kd.1.1 = ref) && forallb (matches kd.2) wheres
          then Some kd.2 else None)
       (map_to_list s).

(** [followTopic]: [setDoc(doc(subscriptionRef, topicName), {...})]. *)
Definition followTopic (d : FollowTopicData) (s : Store) : Store :=
  setDoc (setSubscriptionRef (uid d)) (topicName d) d s.

(** [unfollowTopic]: [deleteDoc(doc(subscriptionRef, topicName))]. *)
Definition unfollowTopic (uid : option string) (topicName : string)
    (s : Store) : Store :=
  deleteDoc (setSubscriptionRef uid) topicName s.

(** [TopicQuery], first half: the query that is awaited. *)
Definition TopicQuery_getDocs (uid : option string) (topicName : string)
    (s : Store) : list Doc :=
  getDocs (setSubscriptionRef uid) [where_topicName topicName] s.

(** [TopicQuery], second half: [result = ""], overwritten by every
    document of the snapshot in turn. *)
Definition TopicQuery_result (querySnapshot : list Doc) : string :=
  foldl (λ _ doc, topicName doc) "" querySnapshot.

Definition TopicQuery (uid : option string) (topicName : string)
    (s : Store) : string :=
  TopicQuery_result (TopicQuery_getDocs uid topicName s).

(** [type Results = { [key: string]: string[] }], with the two keys
    [FollowingQuery] fills; the arrays hold the lookups it pushes. *)
Record Results := mkResults {
  bills : list BillItem;
  orgs : list UserItem
}.

(** [FollowingQuery]: two queries on the user's collection, both filtered
    on the [uid] field, one on type ["bill"], one on type ["org"]; a
    document contributes its lookup when it has one. *)
Definition FollowingQuery (uid : option string) (s : Store) : Results :=
  let subscriptionRef := setSubscriptionRef uid in
  let querySnapshotBills :=
    getDocs subscriptionRef
      [where_uid (interpolate uid); where_type "bill"] s in
  let querySnapshotOrgs :=
    getDocs subscriptionRef
      [where_uid (interpolate uid); where_type "org"] s in
  {| bills := omap billLookup querySnapshotBills;
     orgs := omap userLookup querySnapshotOrgs |}.

End FollowingQueries.

Import FollowingQueries.

(** ** Asynchronous functions *)

(** How a promise settles. *)
Inductive Outcome (A : Type) :=
| Fulfilled (a : A)
| Rejected (reason : string).
Arguments Fulfilled {A} a.
Arguments Rejected {A} reason.

(** An [async] function over a state [S]: it runs and settles. *)
Definition Async (S A : Type) : Type := S → Outcome A * S.

Definition resolved {S A} (a : A) : Async S A := λ s, (Fulfilled a, s).

(** [const x = await m; k x]: a rejection of [m] skips [k]. *)
Definition await {S A B} (m : Async S A) (k : A → Async S B) : Async S B :=
  λ s, match m s with
       | (Fulfilled a, s') => k a s'
       | (Rejected e, s') => (Rejected e, s')
       end.

(** [try { m } catch (err) { handler err }] *)
Definition try_catch {S A} (m : Async S A) (handler : string → Async S A)
  : Async S A :=
  λ s, match m s with
       | (Fulfilled a, s') => (Fulfilled a, s')
       | (Rejected e, s') => handler e s'
       end.

Notation "m ;; k" := (await m (λ _, k))
  (at level 100, k at level 200, right associativity, only parsing).

(** A state update: [setX(...)], or a call that is not awaited, whose
    effect on the state happens and whose outcome is dropped. *)
Definition update {S} (f : S → S) : Async S unit := λ s, (Fulfilled tt, f s).

(** [if (hook) await hook()] *)
Definition call_if_set {S} (hook : option (Async S unit)) : Async S unit :=
  match hook with Some h => h | None => resolved tt end.

(** ** Client state *)

(** Modelled from the spec: [FollowContext] (the module [./FollowContext]
    is not among the sources) holds the follow status cache [followStatus],
    a map from topic key to followed boolean in which a topic never
    resolved has no entry, and [setFollowStatus], which takes an updater of
    the previous map. *)
Abbreviation FollowStatus := (gmap string bool).

(** The state the components share.  [store] is Firestore;
    [followStatus] is the state of the follow context; [billsFollowing]
    and [usersFollowing] are the two [useState] cells of the Following
    tab, which the tab's [onUnfollow] hooks write. *)
Record App := mkApp {
  store : Store;
  followStatus : FollowStatus;
  billsFollowing : list BillItem;
  usersFollowing : list UserItem
}.

Definition with_store (f : Store → Store) (a : App) : App :=
  {| store := f (store a); followStatus := followStatus a;
     billsFollowing := billsFollowing a; usersFollowing := usersFollowing a |}.

(** [setFollowStatus(prev => ...)] *)
Definition setFollowStatus (updater : gmap string bool → gmap string bool)
  : Async App unit :=
  update (λ a,
    {| store := store a; followStatus := updater (followStatus a);
       billsFollowing := billsFollowing a;
       usersFollowing := usersFollowing a |}).

Definition setBillsFollowing (l : list BillItem) : Async App unit :=
  update (λ a,
    {| store := store a; followStatus := followStatus a;
       billsFollowing := l; usersFollowing := usersFollowing a |}).

Definition setUsersFollowing (l : list UserItem) : Async App unit :=
  update (λ a,
    {| store := store a; followStatus := followStatus a;
       billsFollowing := billsFollowing a; usersFollowing := l |}).

(** ** The event loop *)

(** The code that waits behind an [await getDocs(q)], with the variables it
    captured and the snapshot the query was served with. *)
Inductive Pending :=
| TopicQuery_then (topicName : string) (querySnapshot : list Doc)
| billsFollowingQuery_then (billsFollowing : list BillItem)
    (querySnapshot : list Doc)
| orgsFollowingQuery_then (usersFollowing : list UserItem)
    (querySnapshot : list Doc).

Record Loop := mkLoop {
  app : App;
  pending : gmap nat Pending;
  issued : nat
}.

(** Issue a query: its continuation is parked under a fresh number. *)
Definition park (p : Pending) (l : Loop) : Loop :=
  {| app := app l; pending := <[issued l := p]> (pending l);
     issued := S (issued l) |}.

(** Run a handler of the user interface in one turn of the loop. *)
Definition dispatch {A} (h : Async App A) (l : Loop) : Outcome A * Loop :=
  let r := h (app l) in
  (r.1, {| app := r.2; pending := pending l; issued := issued l |}).

(** ** FollowButton.tsx *)

Module FollowButton.

(** Text as the view receives it: a literal or a call of the translation
    function [t], whose parameters are literals or calls of
    [formatBillId]. *)
Inductive Value :=
| value (s : string)
| formatBillId (billId : string).

Inductive Text :=
| Literal (s : string)
| t (key : string) (params : list (string * Value)).

Record BaseFollowButtonProps := mkBaseFollowButtonProps {
  onFollow : option (Async App unit);
  onUnfollow : option (Async App unit);
  confirmFollow : option bool;
  confirmUnfollow : option bool;
  hide : option bool
}.

(** [BaseFollowButtonProps & { topicName, displayName }] *)
Record Props := mkProps {
  topicName : string;
  displayName : Text;
  rest : BaseFollowButtonProps
}.

(** The effect of [BaseFollowButton]: with a user id, issue [TopicQuery]
    and park the [then] callback; without one, do nothing. *)
Definition useEffect (uid : option string) (topicName : string) (l : Loop)
  : Loop :=
  if truthy uid
  then park (TopicQuery_then topicName
               (TopicQuery_getDocs uid topicName (store (app l)))) l
  else l.

(** The [then] callback: [result] is what [TopicQuery] returns. *)
Definition TopicQuery_callback (topicName : string) (result : string)
  : Async App unit :=
  setFollowStatus (λ prevOrgFollowGroup,
    <[topicName := Boolean result]> prevOrgFollowGroup).

Definition isFollowing (p : Props) (a : App) : option bool :=
  followStatus a !! topicName p.

Definition wantsConfirm (p : Props) (a : App) : option bool :=
  if truthy (isFollowing p a)
  then confirmUnfollow (rest p) else confirmFollow (rest p).

Definition toggleFollow (p : Props) : Async App unit :=
  λ a,
    (if truthy (isFollowing p a)
     then call_if_set (onUnfollow (rest p)) ;;
          setFollowStatus (λ prev, <[topicName p := false]> prev)
     else call_if_set (onFollow (rest p)) ;;
          setFollowStatus (λ prev, <[topicName p := true]> prev)) a.

(** The three handlers; each returns the next value of [showModal]. *)
Definition onClick (p : Props) (showModal : bool) : Async App bool :=
  λ a,
    (if truthy (wantsConfirm p a)
     then resolved true
     else toggleFollow p ;; resolved showModal) a.

Definition onConfirm (p : Props) : Async App bool :=
  toggleFollow p ;; resolved false.

Definition onDeny : Async App bool := resolved false.

(** What [BaseFollowButton] returns. *)
Record ButtonView := mkButtonView {
  label : Text;
  check_image : bool
}.

Record ModalView := mkModalView {
  show : bool;
  modal_displayName : Text;
  action : string
}.

Record View := mkView {
  button : option ButtonView;
  modal : ModalView
}.

Definition BaseFollowButton (p : Props) (showModal : bool) (a : App) : View :=
  let isFollowing := isFollowing p a in
  {| button :=
       if negb (truthy (hide (rest p)))
       then Some {| label :=
                      t ("button.follow." +:+
                         (if truthy isFollowing then "following" else "follow"))
                        [];
                    check_image := truthy isFollowing |}
       else None;
     modal := {| show := showModal;
                 modal_displayName := displayName p;
                 action := if truthy isFollowing
                           then "unfollow" else "follow" |} |}.

Definition FollowUserButton (uid : option string) (item : UserItem)
    (props : BaseFollowButtonProps) : Props :=
  let topicName := "testimony-" +:+ interpolate (profileId item) in
  {| topicName := topicName;
     displayName := if truthy (fullName item)
                    then Literal (default "" (fullName item))
                    else t "modal.this_user" [];
     rest :=
       {| onFollow := Some (
            update (with_store (followTopic
              {| FollowingQueries.uid := uid;
                 FollowingQueries.topicName := topicName;
                 data := ProfileData
                   {| profileId := profileId item; fullName := None |} |})) ;;
            call_if_set (onFollow props));
          onUnfollow := Some (
            update (with_store (unfollowTopic uid topicName)) ;;
            call_if_set (onUnfollow props));
          confirmFollow := confirmFollow props;
          confirmUnfollow := confirmUnfollow props;
          hide := hide props |} |}.

Definition FollowBillButton (uid : option string) (item : BillItem)
    (props : BaseFollowButtonProps) : Props :=
  let topicName :=
    "bill-" +:+ interpolate (court item) +:+ "-" +:+
    interpolate (billId item) in
  {| topicName := topicName;
     displayName := t "bill.bill" [("billId", formatBillId (billId item))];
     rest :=
       {| onFollow := Some (
            update (with_store (followTopic
              {| FollowingQueries.uid := uid;
                 FollowingQueries.topicName := topicName;
                 data := BillData
                   {| billId := billId item; court := court item |} |})) ;;
            call_if_set (onFollow props));
          onUnfollow := Some (
            update (with_store (unfollowTopic uid topicName)) ;;
            call_if_set (onUnfollow props));
          confirmFollow := confirmFollow props;
          confirmUnfollow := confirmUnfollow props;
          hide := hide props |} |}.

End FollowButton.

(** ** FollowingTab.tsx *)

Module FollowingTab.
Import FollowButton.

(** [useMemo(() => uid ? collection(...) : null, [uid])] *)
Definition subscriptionRef (uid : option string) : option string :=
  if truthy uid
  then Some ("/users/" +:+ interpolate uid +:+ "/activeTopicSubscriptions/")
  else None.

(** [billsFollowingQuery] up to its [await]: the callback closes over the
    [billsFollowing] of the render that created it. *)
Definition billsFollowingQuery (uid : option string) (l : Loop) : Loop :=
  match subscriptionRef uid with
  | None => l
  | Some ref =>
      park (billsFollowingQuery_then (billsFollowing (app l))
              (getDocs ref [where_uid (interpolate uid); where_type "bill"]
                 (store (app l)))) l
  end.

(** [billsFollowingQuery] after its [await].  Every document of the
    snapshot passed the filter on [type], so each has a [billLookup]
    ([billList_length] below): collecting them drops nothing. *)
Definition billsFollowingQuery_resume (billsFollowing : list BillItem)
    (querySnapshot : list Doc) : Async App unit :=
  let billList := omap billLookup querySnapshot in
  if bool_decide (length billsFollowing = 0)
     && negb (bool_decide (length billList = 0))
  then setBillsFollowing billList
  else resolved tt.

Definition orgsFollowingQuery (uid : option string) (l : Loop) : Loop :=
  match subscriptionRef uid with
  | None => l
  | Some ref =>
      park (orgsFollowingQuery_then (usersFollowing (app l))
              (getDocs ref
                 [where_uid (interpolate uid); where_type "testimony"]
                 (store (app l)))) l
  end.

Definition orgsFollowingQuery_resume (usersFollowing : list UserItem)
    (querySnapshot : list Doc) : Async App unit :=
  let usersList := omap userLookup querySnapshot in
  if bool_decide (length usersFollowing = 0)
     && negb (bool_decide (length usersList = 0))
  then setUsersFollowing usersList
  else resolved tt.

(** The effect without a dependency list: it runs after every render. *)
Definition useEffect_every_render (uid : option string) (l : Loop) : Loop :=
  if truthy uid then billsFollowingQuery uid l else l.

Definition fetchFollowedItems (uid : option string) (l : Loop) : Loop :=
  if truthy uid
  then orgsFollowingQuery uid (billsFollowingQuery uid l)
  else l.

(** The effects of a render in which [billsFollowing] or [usersFollowing]
    is new (the first render included): both effects run, in the order of
    their declaration. *)
Definition useEffects (uid : option string) (l : Loop) : Loop :=
  fetchFollowedItems uid (useEffect_every_render uid l).

(** The follow button [BillsCard] builds for an item:
    [<FollowBillButton confirmUnfollow={true} {...props} />]. *)
Definition BillsCard_followButton (uid : option string) (item : BillItem)
    (props : BaseFollowButtonProps) : Props :=
  FollowBillButton uid item
    {| onFollow := onFollow props;
       onUnfollow := onUnfollow props;
       confirmFollow := confirmFollow props;
       confirmUnfollow := match confirmUnfollow props with
                          | Some b => Some b
                          | None => Some true
                          end;
       hide := hide props |}.

(** The items [FollowingTab] hands to [BillsCard]:
    [{ ...bill, onUnfollow: async () => setBillsFollowing([]) }]. *)
Definition bill_item_props : BaseFollowButtonProps :=
  {| onFollow := None;
     onUnfollow := Some (setBillsFollowing []);
     confirmFollow := None; confirmUnfollow := None; hide := None |}.

Definition user_item_props : BaseFollowButtonProps :=
  {| onFollow := None;
     onUnfollow := Some (setUsersFollowing []);
     confirmFollow := None; confirmUnfollow := None; hide := None |}.

(** The follow buttons of the bills card, one per held bill. *)
Definition FollowingTab_bill_buttons (uid : option string) (a : App)
  : list Props :=
  map (λ bill, BillsCard_followButton uid bill bill_item_props)
      (billsFollowing a).

End FollowingTab.

(** ** Resolving a parked query *)

Definition resume (p : Pending) : Async App unit :=
  match p with
  | TopicQuery_then topicName querySnapshot =>
      FollowButton.TopicQuery_callback topicName
        (TopicQuery_result querySnapshot)
  | billsFollowingQuery_then billsFollowing querySnapshot =>
      FollowingTab.billsFollowingQuery_resume billsFollowing querySnapshot
  | orgsFollowingQuery_then usersFollowing querySnapshot =>
      FollowingTab.orgsFollowingQuery_resume usersFollowing querySnapshot
  end.

(** The promise numbered [id] resolves: its continuation runs and is
    forgotten.  A number that is not parked resolves nothing. *)
Definition resolve (id : nat) (l : Loop) : Loop :=
  match pending l !! id with
  | None => l
  | Some p =>
      {| app := (resume p (app l)).2;
         pending := delete id (pending l);
         issued := issued l |}
  end.

(** ** FollowersTab.tsx *)

Module FollowersTab.

(** The [useState] cell of the tab, the calls its [setFollowerCount] prop
    received, and what was written with [console.error]. *)
Record State := mkState {
  followerIds : list string;
  setFollowerCount_calls : list nat;
  console_error : list (string * string)
}.

Definition initial : State :=
  {| followerIds := []; setFollowerCount_calls := []; console_error := [] |}.

(** How the promise of [getFollowers({ uid })] settles. *)
Inductive GetFollowers :=
| response (data : list string)
| rejects (err : string).

Definition getFollowers (rpc : string → GetFollowers) (uid : string)
  : Async State (list string) :=
  λ s, match rpc uid with
       | response data => (Fulfilled data, s)
       | rejects err => (Rejected err, s)
       end.

Definition setFollowerIds (ids : list string) : Async State unit :=
  update (λ s,
    {| followerIds := ids;
       setFollowerCount_calls := setFollowerCount_calls s;
       console_error := console_error s |}).

Definition setFollowerCount (n : nat) : Async State unit :=
  update (λ s,
    {| followerIds := followerIds s;
       setFollowerCount_calls := setFollowerCount_calls s ++ [n];
       console_error := console_error s |}).

Definition console_error_call (message err : string) : Async State unit :=
  update (λ s,
    {| followerIds := followerIds s;
       setFollowerCount_calls := setFollowerCount_calls s;
       console_error := console_error s ++ [(message, err)] |}).

Definition fetchFollowers (rpc : string → GetFollowers) (uid : string)
  : Async State unit :=
  try_catch
    (await (getFollowers rpc uid) (λ data,
       setFollowerIds data ;;
       setFollowerCount (length data)))
    (λ err, console_error_call "Error fetching followerIds" err).

(** [if (uid) fetchFollowers(uid)] *)
Definition useEffect (rpc : string → GetFollowers) (uid : option string)
  : Async State unit :=
  match uid with
  | Some u => if truthy u then fetchFollowers rpc u else resolved tt
  | None => resolved tt
  end.

(** The [items] handed to [UsersCard]. *)
Definition FollowersTab (s : State) : list UserItem :=
  map (λ profileId, {| profileId := profileId; fullName := None |})
      (followerIds s).

End FollowersTab.

(** ** The followers tab over collection-group queries
    (a source file whose name is not recorded) *)

Module PeerFollowersTab.

(** Modelled from the spec: [UserElement] is declared in
    [./FollowingTabComponents], which is not among the sources.  The spec
    gives a user lookup as [{ profileId, fullName? }], with an inner [uid]
    in the peer-follow schema.  The tab reads [profileId] of an element and
    [uid] of a stored [userLookup]; either may be absent at run time. *)
Record UserElement := mkUserElement {
  profileId : option string;
  uid : option string;
  fullName : option string
}.

Global Instance UserElement_eq_dec : EqDecision UserElement.
Proof. solve_decision. Defined.

(** What [doc.data()] holds of a document, as far as the tab reads it. *)
Record DocData := mkDocData { userLookup : option UserElement }.

(** The two [useState] cells the list is rendered from, and the calls of
    [addDoc] as (follower, followed). *)
Record State := mkState {
  iFollowSet : gset (option string);
  followers : list (option UserElement);
  addDoc_calls : list (string * string)
}.

Definition initial : State :=
  {| iFollowSet := ∅; followers := []; addDoc_calls := [] |}.

Definition setFollowers (list : list (option UserElement))
  : Async State unit :=
  update (λ s, {| iFollowSet := iFollowSet s; followers := list;
                  addDoc_calls := addDoc_calls s |}).

Definition setIFollowSet (ids : gset (option string)) : Async State unit :=
  update (λ s, {| iFollowSet := ids; followers := followers s;
                  addDoc_calls := addDoc_calls s |}).

(** First effect, after [await getDocs(followersQuery)]:
    [qs.forEach(doc => list.push(doc.data().userLookup))]. *)
Definition followers_then (qs : list DocData) : Async State unit :=
  setFollowers (map userLookup qs).

(** [qs.forEach(doc => ids.add(doc.data().userLookup.uid))]: reading [uid]
    of an absent [userLookup] throws. *)
Definition collect_ids (qs : list DocData)
  : Async State (gset (option string)) :=
  foldl (λ acc doc,
           await acc (λ ids,
             match userLookup doc with
             | Some lookup => resolved (ids ∪ {[uid lookup]})
             | None => λ s, (Rejected "TypeError", s)
             end))
        (resolved ∅) qs.

(** Second effect, after [await getDocs(myFollowsQuery)]. *)
Definition myFollows_then (qs : list DocData) : Async State unit :=
  await (collect_ids qs) (λ ids, setIFollowSet ids).

(** The props of one [FollowedItem] ([type] is the constant ["org"]). *)
Record FollowedItem := mkFollowedItem {
  key : option string;
  element : UserElement;
  alreadyFollowing : bool
}.

(** [followers.map(element => <FollowedItem ... />)]; [None] when reading
    [profileId] of an absent element throws. *)
Definition FollowersTab (s : State) : option (list FollowedItem) :=
  mapM (λ e : option UserElement,
          match e with
          | Some element =>
              Some {| key := profileId element;
                      element := element;
                      alreadyFollowing :=
                        bool_decide (profileId element ∈ iFollowSet s) |}
          | None => None
          end)
       (followers s).



End PeerFollowersTab.

(** ** Vocabulary of the properties *)

Import FollowButton.

(** A followable subject: a bill or a user. *)
Inductive Topic :=
| bill_topic (item : BillItem)
| user_topic (item : UserItem).

(** The follow button the source builds for a topic. *)
Definition follow_button (uid : option string) (T : Topic)
    (props : BaseFollowButtonProps) : Props :=
  match T with
  | bill_topic item => FollowBillButton uid item props
  | user_topic item => FollowUserButton uid item props
  end.

(** A hook supplied by the caller of a follow button is well behaved when
    it fulfils and leaves the store and the status cache alone, as the
    hooks of the Following tab do. *)
Definition quiet_hook (hook : option (Async App unit)) : Prop :=
  ∀ a, ∃ a', call_if_set hook a = (Fulfilled tt, a')
             ∧ store a' = store a ∧ followStatus a' = followStatus a.

(** Props without hooks, confirmation or hiding. *)
Definition plain_props : BaseFollowButtonProps :=
  {| onFollow := None; onUnfollow := None;
     confirmFollow := None; confirmUnfollow := None; hide := None |}.

Definition empty_app : App :=
  {| store := ∅; followStatus := ∅;
     billsFollowing := []; usersFollowing := [] |}.

Definition empty_loop : Loop :=
  {| app := empty_app; pending := ∅; issued := 0 |}.

(** The document the follow button of a topic writes. *)
Definition follow_doc (uid : option string) (T : Topic) : Doc :=
  {| FollowingQueries.uid := uid;
     FollowingQueries.topicName := topicName (follow_button uid T plain_props);
     data := match T with
             | bill_topic item =>
                 BillData {| billId := billId item; court := court item |}
             | user_topic item =>
                 ProfileData
                   {| profileId := profileId item; fullName := None |}
             end |}.

(** The rendered button presents the following (or the not-following)
    state when it is shown with the label of that state. *)
Definition presents (v : View) (following : bool) : Prop :=
  ∃ b, button v = Some b
       ∧ label b = t ("button.follow." +:+
                      (if following then "following" else "follow")) [].

(** The display contract of the spec at one input: with an unknown status
    the button presents neither state. *)
Definition neutral_while_unknown (p : Props) (showModal : bool) (a : App)
  : Prop :=
  isFollowing p a = None →
  ∀ following, ¬ presents (BaseFollowButton p showModal a) following.

(** The ordering contract of the spec at one input: the status query parked
    under [id] was issued before the toggle, and its response, applied after
    the toggle, leaves the toggled cache entry as it is. *)
Definition toggle_outlives_query (p : Props) (l : Loop) (id : nat) : Prop :=
  ∀ querySnapshot l',
    pending l !! id = Some (TopicQuery_then (topicName p) querySnapshot) →
    dispatch (toggleFollow p) l = (Fulfilled tt, l') →
    followStatus (app (resolve id l')) !! topicName p
    = followStatus (app l') !! topicName p.

(** A session of the Following tab in which a response arrives late.  The
    user [u1] follows the bills H1 and H2 of court 193. *)
Module LateResponse.

Definition uid : option string := Some "u1".
Definition H1 : BillItem := {| court := 193; billId := "H1" |}.
Definition H2 : BillItem := {| court := 193; billId := "H2" |}.

Definition opened : Loop :=
  {| app := {| store := followTopic (follow_doc uid (bill_topic H2))
                          (followTopic (follow_doc uid (bill_topic H1)) ∅);
               followStatus := ∅;
               billsFollowing := []; usersFollowing := [] |};
     pending := ∅; issued := 0 |}.

(** The tab mounts: its effects issue the bill query twice (0 and 1) and
    the user query once (2), all with empty held lists. *)
Definition mounted : Loop := FollowingTab.useEffects uid opened.

(** Response 0 arrives and fills the list; the render that follows issues
    queries 3, 4 and 5, and the two bill buttons issue their status queries
    6 and 7, which resolve. *)
Definition listed : Loop :=
  resolve 7 (resolve 6
    (useEffect uid "bill-193-H2"
       (useEffect uid "bill-193-H1"
          (FollowingTab.useEffects uid (resolve 0 mounted))))).

(** The button of H1 in the bills card. *)
Definition button_H1 : Props :=
  FollowingTab.BillsCard_followButton uid H1 FollowingTab.bill_item_props.

(** The user unfollows H1 and confirms: the list is reset, and the render
    that follows issues queries 8, 9 and 10. *)
Definition unfollowed : Loop :=
  FollowingTab.useEffects uid (dispatch (onConfirm button_H1) listed).2.

(** Response 8 arrives and fills the list again. *)
Definition relisted : Loop := resolve 8 unfollowed.

(** Response 1, issued at mount, arrives last. *)
Definition late : Loop := resolve 1 relisted.

End LateResponse.

(** Documents are stored under their topic name: every write of the source
    goes through [followTopic]. *)
Definition keyed_by_topic (s : gmap (string * string) Doc) : Prop :=
  ∀ ref id d, s !! (ref, id) = Some d → FollowingQueries.topicName d = id.

(** ** FollowableItemsCard.tsx and its later revision *)

Module FollowableItemsCard.

(** What [usePublicProfile] returns, as far as the cards read it. *)
Record Profile := mkProfile {
  profile_profileImage : option string;
  profile_fullName : option string
}.

Record UseAsync := mkUseAsync {
  result : option Profile;
  loading : bool
}.

(** The content of a user row: the icon with the profile image and the
    link to the profile with the full name as its text. *)
Record Content := mkContent {
  icon_profileImage : option string;
  href : string;
  link_text : option string
}.

(** A rendered row: the spinner, or the content beside the follow button;
    the follow button is kept as the props it is built with. *)
Inductive Row :=
| Spinner
| ItemRow (content : Content) (followButton : Props).

Record Card := mkCard {
  className : option string;
  title : string;
  subtitle : option string;
  rows : list (option nat * Row)
}.

(** [FollowableItemCard] *)
Definition FollowableItemCard (loading : bool) (followButton : Props)
    (content : Content) : Row :=
  if loading then Spinner else ItemRow content followButton.

(** [FollowableItemsCard]: one [ItemCard] per item under the key of its
    index; the subtitle paragraph only for a truthy subtitle. *)
Definition FollowableItemsCard {Item} (className : option string)
    (title : string) (subtitle : option string) (items : list Item)
    (ItemCard : Item → Row) : Card :=
  {| className := className; title := title;
     subtitle := if truthy subtitle then subtitle else None;
     rows := imap (λ i item, (Some i, ItemCard item)) items |}.

Definition FollowableItemsCardWith {Item} (ItemCard : Item → Row)
    (className : option string) (title : string) (subtitle : option string)
    (items : list Item) : Card :=
  FollowableItemsCard className title subtitle items ItemCard.

(** [const { profileImage, fullName } = profile || {}] *)
Definition profile_field (field : Profile → option string)
    (profile : option Profile) : option string :=
  match profile with Some p => field p | None => None end.

(** The content both revisions of [UsersCard] build. *)
Definition user_content (profileId : string) (profile : option Profile)
  : Content :=
  {| icon_profileImage := profile_field profile_profileImage profile;
     href := "/profile?id=" +:+ interpolate profileId;
     link_text := profile_field profile_fullName profile |}.

(** [<FollowUserButton fullName={fullName} confirmUnfollow={true}
    {...props} />]: a prop of the item, when it is set, replaces the one
    written before the spread. *)
Definition UsersCard_followButton (uid : option string)
    (profile : option Profile) (item : UserItem)
    (props : BaseFollowButtonProps) : Props :=
  FollowUserButton uid
    {| profileId := profileId item;
       fullName := match fullName item with
                   | Some name => Some name
                   | None => profile_field profile_fullName profile
                   end |}
    {| onFollow := onFollow props;
       onUnfollow := onUnfollow props;
       confirmFollow := confirmFollow props;
       confirmUnfollow := match confirmUnfollow props with
                          | Some b => Some b
                          | None => Some true
                          end;
       hide := hide props |}.

Section UsersCard.

(** The hook [usePublicProfile] and the user id of [useAuth], which
    [FollowUserButton] reads. *)
Variable usePublicProfile : string → UseAsync.
Variable uid : option string.

(** The [ItemCard] of [UsersCard]; its items are plain [UserItem]s. *)
Definition UsersCard_ItemCard (props : UserItem) : Row :=
  let use := usePublicProfile (profileId props) in
  FollowableItemCard (loading use)
    (UsersCard_followButton uid (result use) props plain_props)
    (user_content (profileId props) (result use)).

Definition UsersCard (className : option string) (title : string)
    (subtitle : option string) (items : list UserItem) : Card :=
  FollowableItemsCardWith UsersCard_ItemCard className title subtitle items.

End UsersCard.

End FollowableItemsCard.

(** The later revision of the card (a source file whose name is not
    recorded): the items carry the props of the follow button, and the rows
    are built by two maps. *)
Module FollowableItemsCardRevised.
Import FollowableItemsCard.

Record FollowableItemProps := mkFollowableItemProps {
  item_loading : bool;
  followButton : Props;
  content : Content
}.

(** [FollowableItem] *)
Definition FollowableItem (props : FollowableItemProps) : Row :=
  if item_loading props
  then Spinner
  else ItemRow (content props) (followButton props).

(** [createFollowableItemsCard]:
    [items.map(toFollowableItemProps).map(FollowableItem)], without keys. *)
Definition createFollowableItemsCard {Item}
    (toFollowableItemProps : Item * BaseFollowButtonProps → FollowableItemProps)
    (className : option string) (title : string) (subtitle : option string)
    (items : list (Item * BaseFollowButtonProps)) : Card :=
  {| className := className; title := title;
     subtitle := if truthy subtitle then subtitle else None;
     rows := map (λ row, (None, row))
               (map FollowableItem (map toFollowableItemProps items)) |}.

Section UsersCard.

Variable usePublicProfile : string → UseAsync.
Variable uid : option string.

Definition UsersCard_toFollowableItemProps
    (item : UserItem * BaseFollowButtonProps) : FollowableItemProps :=
  let use := usePublicProfile (profileId item.1) in
  {| item_loading := loading use;
     content := user_content (profileId item.1) (result use);
     followButton :=
       UsersCard_followButton uid (result use) item.1 item.2 |}.

Definition UsersCard (className : option string) (title : string)
    (subtitle : option string)
    (items : list (UserItem * BaseFollowButtonProps)) : Card :=
  createFollowableItemsCard UsersCard_toFollowableItemProps
    className title subtitle items.

End UsersCard.

End FollowableItemsCardRevised.

(** ** More vocabulary *)

(** A string without the character [-]. *)
Fixpoint no_dash (s : string) : bool :=
  match s with
  | EmptyString => true
  | String c rest => negb (bool_decide (c = "-"%char)) && no_dash rest
  end.

(** The stores the follow buttons build: every document is the one the
    button of some topic writes, in the collection of its [uid] field and
    under its topic name. *)
Definition written_by_buttons (s : gmap (string * string) Doc) : Prop :=
  ∀ ref id d, s !! (ref, id) = Some d →
    ∃ T, d = follow_doc (FollowingQueries.uid d) T
         ∧ id = FollowingQueries.topicName d
         ∧ ref = setSubscriptionRef (FollowingQueries.uid d).


(** A whole number a JavaScript number holds exactly and prints in plain
    decimal. *)
Definition safe_integer (n : Z) : Prop := (- 2 ^ 53 < n < 2 ^ 53)%Z.

(** A topic whose court, if it has one, is a safe integer. *)
Definition court_in_range (T : Topic) : Prop :=
  match T with
  | bill_topic item => safe_integer (court item)
  | user_topic _ => True
  end.

(** The error contract of the spec at one input: when the remote call
    rejects, the tab renders an empty list, the count setter is not
    invoked and the effect fulfils. *)
Definition rejected_call_renders_empty
    (rpc : string → FollowersTab.GetFollowers) (u : string)
    (s : FollowersTab.State) : Prop :=
  ∀ err, rpc u = FollowersTab.rejects err →
    FollowersTab.FollowersTab (FollowersTab.useEffect rpc (Some u) s).2 = []
    ∧ FollowersTab.setFollowerCount_calls
        (FollowersTab.useEffect rpc (Some u) s).2
      = FollowersTab.setFollowerCount_calls s
    ∧ (FollowersTab.useEffect rpc (Some u) s).1 = Fulfilled tt.

(** A remote call that answers for the user [u0] and rejects for everyone
    else. *)
Definition answers_u0_only (u : string) : FollowersTab.GetFollowers :=
  if bool_decide (u = "u0")
  then FollowersTab.response ["u2"]
  else FollowersTab.rejects "unavailable".

(** * Properties *)

(** ** The store and its queries *)

Lemma getDocs_elem (ref : string) (wheres : list Where)
    (s : gmap (string * string) Doc) (d : Doc) :
  d ∈ getDocs ref wheres s
  ↔ ∃ id, s !! (ref, id) = Some d ∧ forallb (matches d) wheres = true.
Proof.
  unfold getDocs. rewrite list_elem_of_omap. split.
  - intros ([[r id] d'] & Hin & Hkeep). cbn in Hkeep.
    destruct (bool_decide (r = ref) && _) eqn:Hb; [|discriminate Hkeep].
    injection Hkeep as ->. apply andb_true_iff in Hb as [Hr Hw].
    apply bool_decide_eq_true in Hr as ->.
    apply elem_of_map_to_list in Hin. eauto.
  - intros (id & Hlook & Hw). exists ((ref, id), d). split.
    + by apply elem_of_map_to_list.
    + cbn. rewrite Hw. by rewrite bool_decide_eq_true_2.
Qed.

(** [TopicQuery] returns the topic name when the snapshot has a document,
    and the empty string otherwise. *)
Lemma TopicQuery_result_cases (T : string) (querySnapshot : list Doc) :
  Forall (λ d, FollowingQueries.topicName d = T) querySnapshot →
  TopicQuery_result querySnapshot
  = match querySnapshot with [] => "" | _ :: _ => T end.
Proof.
  unfold TopicQuery_result.
  induction querySnapshot as [|d qs IH] using rev_ind; [done|].
  intros Hall. rewrite foldl_app. cbn.
  apply Forall_app in Hall as [_ Hd]. apply Forall_inv in Hd.
  cbn beta in Hd. rewrite Hd. by destruct qs.
Qed.

Lemma TopicQuery_getDocs_topic (uid : option string) (T : string)
    (s : gmap (string * string) Doc) :
  Forall (λ d, FollowingQueries.topicName d = T) (TopicQuery_getDocs uid T s).
Proof.
  apply Forall_forall. intros d Hd.
  apply getDocs_elem in Hd as (id & _ & Hw). cbn in Hw.
  apply andb_true_iff in Hw as [Hw _]. by apply bool_decide_eq_true in Hw.
Qed.

(** The status query is truthy exactly when the topic name is not empty
    and the user's collection holds a document of that topic. *)
Lemma TopicQuery_truthy (uid : option string) (T : string)
    (s : gmap (string * string) Doc) :
  Boolean (TopicQuery uid T s) = true
  ↔ T ≠ "" ∧ ∃ id d, s !! (setSubscriptionRef uid, id) = Some d
                      ∧ FollowingQueries.topicName d = T.
Proof.
  unfold TopicQuery.
  rewrite (TopicQuery_result_cases T) by apply TopicQuery_getDocs_topic.
  destruct (TopicQuery_getDocs uid T s) as [|d qs] eqn:Hqs.
  - split; [discriminate|]. intros (_ & id & d & Hlook & HT).
    assert (Hin : d ∈ TopicQuery_getDocs uid T s).
    { apply getDocs_elem. exists id. split; [done|]. cbn.
      by rewrite bool_decide_eq_true_2. }
    rewrite Hqs in Hin. by apply not_elem_of_nil in Hin.
  - assert (Hin : d ∈ TopicQuery_getDocs uid T s)
      by (rewrite Hqs; apply list_elem_of_here).
    apply getDocs_elem in Hin as (id & Hlook & Hw). cbn in Hw.
    apply andb_true_iff in Hw as [Hw _]. apply bool_decide_eq_true in Hw.
    split.
    + intros HT. split; [by intros ->|eauto].
    + intros [HT _]. by destruct T.
Qed.

(** A status query issued after a follow of the topic answers [true]. *)
Lemma TopicQuery_after_follow (uid : option string) (T : Topic)
    (s : gmap (string * string) Doc) :
  Boolean (TopicQuery uid (FollowingQueries.topicName (follow_doc uid T))
             (followTopic (follow_doc uid T) s)) = true.
Proof.
  apply TopicQuery_truthy. split; [by destruct T|].
  eexists _, _. split; [apply lookup_insert_eq|reflexivity].
Qed.

Lemma keyed_by_topic_follow (d : Doc) (s : gmap (string * string) Doc) :
  keyed_by_topic s → keyed_by_topic (followTopic d s).
Proof.
  intros Hs ref id d'. unfold followTopic, setDoc.
  rewrite lookup_insert. case_decide as Hk.
  - injection Hk as <- <-. by intros [= <-].
  - by apply Hs.
Qed.

Lemma keyed_by_topic_unfollow (uid : option string) (T : string)
    (s : gmap (string * string) Doc) :
  keyed_by_topic s → keyed_by_topic (unfollowTopic uid T s).
Proof.
  intros Hs ref id d'. unfold unfollowTopic, deleteDoc.
  rewrite lookup_delete. case_decide; [done|]. by apply Hs.
Qed.

(** A status query issued after an unfollow of the topic answers
    [false]. *)
Lemma TopicQuery_after_unfollow (uid : option string) (T : string)
    (s : gmap (string * string) Doc) :
  keyed_by_topic s →
  Boolean (TopicQuery uid T (unfollowTopic uid T s)) = false.
Proof.
  intros Hs. apply not_true_is_false. intros Htrue.
  apply TopicQuery_truthy in Htrue as (_ & id & d & Hlook & HT).
  pose proof (keyed_by_topic_unfollow uid T s Hs _ _ _ Hlook) as Hid.
  unfold unfollowTopic, deleteDoc in Hlook.
  rewrite <- Hid, HT in Hlook. by rewrite lookup_delete_eq in Hlook.
Qed.

(** ** The follow button *)

Lemma quiet_hook_None : quiet_hook None.
Proof. intros a. exists a. done. Qed.

Lemma follow_button_topicName uid T props :
  topicName (follow_button uid T props)
  = topicName (follow_button uid T plain_props).
Proof. by destruct T. Qed.

(** A toggle in the follow direction writes the topic's document and then
    sets the cache entry. *)
Lemma follow_button_follow uid T props a :
  let p := follow_button uid T props in
  quiet_hook (onFollow props) →
  truthy (isFollowing p a) = false →
  ∃ a', toggleFollow p a = (Fulfilled tt, a')
        ∧ store a' = followTopic (follow_doc uid T) (store a)
        ∧ followStatus a' = <[topicName p := true]> (followStatus a).
Proof.
  intros p Hq Hf. unfold toggleFollow. rewrite Hf.
  destruct (Hq (with_store (followTopic (follow_doc uid T)) a))
    as (a' & Hrun & Hs & Hc).
  exists {| store := store a';
            followStatus := <[topicName p := true]> (followStatus a');
            billsFollowing := billsFollowing a';
            usersFollowing := usersFollowing a' |}.
  split; [|by rewrite Hs, Hc].
  subst p. destruct T; unfold await, follow_doc in *; cbn in *; by rewrite Hrun.
Qed.

(** A toggle in the unfollow direction deletes the topic's document and
    then clears the cache entry. *)
Lemma follow_button_unfollow uid T props a :
  let p := follow_button uid T props in
  quiet_hook (onUnfollow props) →
  truthy (isFollowing p a) = true →
  ∃ a', toggleFollow p a = (Fulfilled tt, a')
        ∧ store a' = unfollowTopic uid (topicName p) (store a)
        ∧ followStatus a' = <[topicName p := false]> (followStatus a).
Proof.
  intros p Hq Hf. unfold toggleFollow. rewrite Hf.
  destruct (Hq (with_store (unfollowTopic uid (topicName p)) a))
    as (a' & Hrun & Hs & Hc).
  exists {| store := store a';
            followStatus := <[topicName p := false]> (followStatus a');
            billsFollowing := billsFollowing a';
            usersFollowing := usersFollowing a' |}.
  split; [|by rewrite Hs, Hc].
  subst p. destruct T; unfold await, follow_doc in *; cbn in *; by rewrite Hrun.
Qed.

(** C2. For every topic and every follower, a successful follow followed
    by a successful unfollow leaves the store without a record under
    (follower, topic) and the cache entry of the topic at [false]. *)
Theorem follow_then_unfollow (follower : string) (T : Topic)
    (props : BaseFollowButtonProps) (a : App) :
  let p := follow_button (Some follower) T props in
  let record := (setSubscriptionRef (Some follower), topicName p) in
  quiet_hook (onFollow props) →
  quiet_hook (onUnfollow props) →
  truthy (isFollowing p a) = false →
  ∃ a1 a2,
    toggleFollow p a = (Fulfilled tt, a1)
    ∧ store a1 !! record = Some (follow_doc (Some follower) T)
    ∧ isFollowing p a1 = Some true
    ∧ toggleFollow p a1 = (Fulfilled tt, a2)
    ∧ store a2 !! record = None
    ∧ followStatus a2 !! topicName p = Some false.
Proof.
  intros p record Hfollow Hunfollow Hnot.
  destruct (follow_button_follow (Some follower) T props a Hfollow Hnot)
    as (a1 & Hrun1 & Hs1 & Hc1).
  assert (Hnow : isFollowing p a1 = Some true).
  { unfold isFollowing. fold p in Hc1. rewrite Hc1. apply lookup_insert_eq. }
  assert (Htruthy : truthy (isFollowing p a1) = true) by by rewrite Hnow.
  destruct (follow_button_unfollow (Some follower) T props a1 Hunfollow Htruthy)
    as (a2 & Hrun2 & Hs2 & Hc2).
  exists a1, a2. repeat split; try done.
  - rewrite Hs1. unfold followTopic, setDoc, record. cbn [FollowingQueries.uid FollowingQueries.topicName follow_doc].
    rewrite <- (follow_button_topicName _ _ props). apply lookup_insert_eq.
  - rewrite Hs2. unfold unfollowTopic, deleteDoc. apply lookup_delete_eq.
  - fold p in Hc2. rewrite Hc2. apply lookup_insert_eq.
Qed.

(** The theorem at the bill H100 of court 193, on the button the bills
    card builds, whose unfollow hook resets the list of the tab. *)
Lemma follow_then_unfollow_witness :
  let T := bill_topic {| court := 193; billId := "H100" |} in
  let p := follow_button (Some "u1") T FollowingTab.bill_item_props in
  let record := ("/users/u1/activeTopicSubscriptions/", "bill-193-H100") in
  quiet_hook (onFollow FollowingTab.bill_item_props)
  ∧ quiet_hook (onUnfollow FollowingTab.bill_item_props)
  ∧ truthy (isFollowing p empty_app) = false
  ∧ ∃ a1 a2,
      toggleFollow p empty_app = (Fulfilled tt, a1)
      ∧ store a1 !! record = Some (follow_doc (Some "u1") T)
      ∧ isFollowing p a1 = Some true
      ∧ toggleFollow p a1 = (Fulfilled tt, a2)
      ∧ store a2 !! record = None
      ∧ followStatus a2 !! "bill-193-H100" = Some false.
Proof.
  intros T p record.
  assert (Hfollow : quiet_hook (onFollow FollowingTab.bill_item_props))
    by (intros a; exists a; split; [reflexivity|split; reflexivity]).
  assert (Hunfollow : quiet_hook (onUnfollow FollowingTab.bill_item_props))
    by (intros a; eexists; split; [reflexivity|split; reflexivity]).
  split; [exact Hfollow|]. split; [exact Hunfollow|].
  split; [reflexivity|].
  apply (follow_then_unfollow "u1" T FollowingTab.bill_item_props empty_app
           Hfollow Hunfollow).
  reflexivity.
Defined.

(** C3. When confirmation is enabled for the current direction, activating
    the control only opens the dialog and denying only closes it: the
    store, the cached statuses and the rest of the client state are what
    they were, whether the dialog is denied or never answered. *)
Theorem deny_changes_nothing (p : Props) (showModal : bool) (a : App) :
  truthy (wantsConfirm p a) = true →
  onClick p showModal a = (Fulfilled true, a)
  ∧ onDeny a = (Fulfilled false, a).
Proof.
  intros Hconfirm. split; [|reflexivity].
  unfold onClick. by rewrite Hconfirm.
Qed.

Lemma deny_changes_nothing_witness :
  let p := FollowingTab.BillsCard_followButton (Some "u1")
             {| court := 193; billId := "H100" |}
             FollowingTab.bill_item_props in
  let a := {| store := ∅; followStatus := {[ "bill-193-H100" := true ]};
              billsFollowing := [{| court := 193; billId := "H100" |}];
              usersFollowing := [] |} in
  truthy (wantsConfirm p a) = true
  ∧ onClick p false a = (Fulfilled true, a)
  ∧ onDeny a = (Fulfilled false, a).
Proof.
  intros p a. split; [reflexivity|].
  apply (deny_changes_nothing p false a). reflexivity.
Defined.

(** C6. When an authenticated user follows the bill of court 193 with id
    H100, by a click that needs no confirmation or by confirming the
    dialog, the store receives the record keyed [bill-193-H100] in the
    user's collection, carrying [billLookup] of that bill, every other
    record stays, the store grows by exactly one record when the key was
    free, and the cache maps [bill-193-H100] to [true]. *)
Theorem follow_bill_193_H100 (u : string) (props : BaseFollowButtonProps)
    (showModal : bool) (a : App) :
  let item := {| court := 193; billId := "H100" |} in
  let p := FollowBillButton (Some u) item props in
  let ref := setSubscriptionRef (Some u) in
  quiet_hook (onFollow props) →
  truthy (followStatus a !! "bill-193-H100") = false →
  ∃ a',
    toggleFollow p a = (Fulfilled tt, a')
    ∧ (truthy (confirmFollow props) = false →
       onClick p showModal a = (Fulfilled showModal, a'))
    ∧ onConfirm p a = (Fulfilled false, a')
    ∧ topicName p = "bill-193-H100"
    ∧ store a' =
        <[(ref, "bill-193-H100") :=
            {| FollowingQueries.uid := Some u;
               FollowingQueries.topicName := "bill-193-H100";
               data := BillData item |}]> (store a)
    ∧ (store a !! (ref, "bill-193-H100") = None →
       size (store a') = S (size (store a)))
    ∧ (billLookup <$> store a' !! (ref, "bill-193-H100")) = Some (Some item)
    ∧ followStatus a' !! "bill-193-H100" = Some true.
Proof.
  intros item p ref Hq Hnot.
  destruct (follow_button_follow (Some u) (bill_topic item) props a Hq Hnot)
    as (a' & Hrun & Hs & Hc).
  change (follow_button (Some u) (bill_topic item) props) with p in Hrun.
  exists a'.
  assert (Hstore : store a' =
            <[(ref, "bill-193-H100") :=
                {| FollowingQueries.uid := Some u;
                   FollowingQueries.topicName := "bill-193-H100";
                   data := BillData item |}]> (store a)) by exact Hs.
  split; [exact Hrun|].
  split.
  { intros Hconfirm. unfold onClick, wantsConfirm.
    change (isFollowing p a) with (followStatus a !! "bill-193-H100").
    rewrite Hnot. change (confirmFollow (rest p)) with (confirmFollow props).
    rewrite Hconfirm. unfold await. by rewrite Hrun. }
  split; [unfold onConfirm, await; by rewrite Hrun|].
  split; [reflexivity|].
  split; [exact Hstore|].
  split; [intros Hfree; rewrite Hstore; by apply map_size_insert_None|].
  split; [by rewrite Hstore, lookup_insert_eq|].
  rewrite Hc. apply lookup_insert_eq.
Qed.

Lemma follow_bill_193_H100_witness :
  let p := FollowBillButton (Some "u1") {| court := 193; billId := "H100" |}
             plain_props in
  let record := ("/users/u1/activeTopicSubscriptions/", "bill-193-H100") in
  quiet_hook (onFollow plain_props)
  ∧ truthy (followStatus empty_app !! "bill-193-H100") = false
  ∧ ∃ a',
      toggleFollow p empty_app = (Fulfilled tt, a')
      ∧ (truthy (confirmFollow plain_props) = false →
         onClick p false empty_app = (Fulfilled false, a'))
      ∧ onConfirm p empty_app = (Fulfilled false, a')
      ∧ topicName p = "bill-193-H100"
      ∧ store a' =
          <[record :=
              {| FollowingQueries.uid := Some "u1";
                 FollowingQueries.topicName := "bill-193-H100";
                 data := BillData {| court := 193; billId := "H100" |} |}]>
            (store empty_app)
      ∧ (store empty_app !! record = None →
         size (store a') = S (size (store empty_app)))
      ∧ (billLookup <$> store a' !! record)
        = Some (Some {| court := 193; billId := "H100" |})
      ∧ followStatus a' !! "bill-193-H100" = Some true.
Proof.
  intros p record.
  assert (Hfollow : quiet_hook (onFollow plain_props))
    by (intros a; exists a; split; [reflexivity|split; reflexivity]).
  split; [exact Hfollow|].
  split; [reflexivity|].
  apply (follow_bill_193_H100 "u1" plain_props false empty_app Hfollow).
  reflexivity.
Defined.


(** Without a user id the follow toggle of either button still writes, in
    the collection of the path segment [undefined]. *)
Lemma follow_without_session (T : Topic) (props : BaseFollowButtonProps)
    (a : App) :
  let p := follow_button None T props in
  quiet_hook (onFollow props) →
  truthy (isFollowing p a) = false →
  ∃ a', toggleFollow p a = (Fulfilled tt, a')
        ∧ store a' !! ("/users/undefined/activeTopicSubscriptions/",
                       topicName p)
          = Some (follow_doc None T).
Proof.
  intros p Hq Hnot.
  destruct (follow_button_follow None T props a Hq Hnot)
    as (a' & Hrun & Hs & _).
  exists a'. split; [exact Hrun|]. rewrite Hs.
  unfold followTopic, setDoc. subst p.
  rewrite (follow_button_topicName None T props). apply lookup_insert_eq.
Qed.

(** C4. Without a session the toggle is not suppressed: the bill button
    clicked with no user id writes a document under
    [/users/undefined/activeTopicSubscriptions/] and marks the topic as
    followed, and a second click deletes that document, although the
    status query of the same component is skipped for the same absent
    user id. *)
Theorem toggle_without_session_writes :
  let p := FollowBillButton None {| court := 193; billId := "H100" |}
             plain_props in
  let record :=
    ("/users/undefined/activeTopicSubscriptions/", "bill-193-H100") in
  let a1 := (onClick p false empty_app).2 in
  let a2 := (onClick p false a1).2 in
  useEffect None (topicName p) empty_loop = empty_loop
  ∧ (onClick p false empty_app).1 = Fulfilled false
  ∧ store a1 !! record
    = Some {| FollowingQueries.uid := None;
              FollowingQueries.topicName := "bill-193-H100";
              data := BillData {| court := 193; billId := "H100" |} |}
  ∧ store a1 ≠ store empty_app
  ∧ followStatus a1 !! "bill-193-H100" = Some true
  ∧ (onClick p false a1).1 = Fulfilled false
  ∧ store a2 !! record = None
  ∧ store a2 ≠ store a1
  ∧ followStatus a2 !! "bill-193-H100" = Some false.
Proof.
  cbv zeta. split; [reflexivity|]. split; [reflexivity|].
  set (p := FollowBillButton None {| court := 193; billId := "H100" |}
              plain_props).
  assert (Hwritten :
    store (onClick p false empty_app).2
      !! ("/users/undefined/activeTopicSubscriptions/", "bill-193-H100")
    = Some {| FollowingQueries.uid := None;
              FollowingQueries.topicName := "bill-193-H100";
              data := BillData {| court := 193; billId := "H100" |} |})
    by (vm_compute; reflexivity).
  assert (Hdeleted :
    store (onClick p false (onClick p false empty_app).2).2
      !! ("/users/undefined/activeTopicSubscriptions/", "bill-193-H100")
    = None) by (vm_compute; reflexivity).
  split; [exact Hwritten|].
  split; [intros Heq; rewrite Heq in Hwritten; discriminate Hwritten|].
  split; [vm_compute; reflexivity|].
  split; [vm_compute; reflexivity|].
  split; [exact Hdeleted|].
  split.
  { intros Heq. rewrite Heq in Hdeleted.
    discriminate (eq_trans (eq_sym Hwritten) Hdeleted). }
  vm_compute; reflexivity.
Qed.


(** ** The status cache under query responses *)

Lemma toggleFollow_sets_entry p a a' :
  toggleFollow p a = (Fulfilled tt, a') →
  followStatus a' !! topicName p = Some (negb (truthy (isFollowing p a))).
Proof.
  unfold toggleFollow, await.
  destruct (truthy (isFollowing p a)); cbn.
  - destruct (call_if_set (onUnfollow (rest p)) a) as [[[]|e] a1];
      intros [= <-]; cbn; apply lookup_insert_eq.
  - destruct (call_if_set (onFollow (rest p)) a) as [[[]|e] a1];
      intros [= <-]; cbn; apply lookup_insert_eq.
Qed.

Lemma resume_followStatus_other (T : string) q a :
  (∀ querySnapshot, q ≠ TopicQuery_then T querySnapshot) →
  followStatus (resume q a).2 !! T = followStatus a !! T.
Proof.
  intros Hother. destruct q as [T' qs|held qs|held qs]; cbn.
  - apply lookup_insert_ne. intros ->. by eapply Hother.
  - unfold FollowingTab.billsFollowingQuery_resume.
    by destruct (_ && _).
  - unfold FollowingTab.orgsFollowingQuery_resume.
    by destruct (_ && _).
Qed.

(** C1, the ordering contract fails: the bill button issues its status
    query on mount against an empty store, the user follows before the
    response is applied, and the response then puts [false] over the
    toggle's [true]. *)
Lemma stale_query_overwrites_toggle :
  let p := FollowBillButton (Some "u1") {| court := 193; billId := "H100" |}
             plain_props in
  let l1 := useEffect (Some "u1") (topicName p) empty_loop in
  let l2 := (dispatch (toggleFollow p) l1).2 in
  pending l1 !! 0 = Some (TopicQuery_then "bill-193-H100" [])
  ∧ followStatus (app l2) !! "bill-193-H100" = Some true
  ∧ followStatus (app (resolve 0 l2)) !! "bill-193-H100" = Some false
  ∧ ¬ toggle_outlives_query p l1 0.
Proof.
  cbv zeta.
  split; [vm_compute; reflexivity|].
  split; [vm_compute; reflexivity|].
  split; [vm_compute; reflexivity|].
  intros Hclaim.
  specialize (Hclaim [] _ ltac:(vm_compute; reflexivity) eq_refl).
  vm_compute in Hclaim. discriminate Hclaim.
Qed.

(** C1, as the code has it: a toggle sets the cache entry of its topic to
    the flipped status and cancels no query; the entry then keeps that
    value under every response that is not a status response for the
    topic, and a status response for the topic applied after the toggle,
    whenever its query was issued, puts its own result over it. *)
Theorem last_applied_update_wins (p : Props) (l l' : Loop) :
  dispatch (toggleFollow p) l = (Fulfilled tt, l') →
  followStatus (app l') !! topicName p
    = Some (negb (truthy (isFollowing p (app l))))
  ∧ pending l' = pending l
  ∧ (∀ id querySnapshot,
       pending l' !! id = Some (TopicQuery_then (topicName p) querySnapshot) →
       followStatus (app (resolve id l')) !! topicName p
       = Some (Boolean (TopicQuery_result querySnapshot)))
  ∧ (∀ id,
       (∀ querySnapshot,
          pending l' !! id ≠ Some (TopicQuery_then (topicName p) querySnapshot)) →
       followStatus (app (resolve id l')) !! topicName p
       = followStatus (app l') !! topicName p).
Proof.
  unfold dispatch. intros [= Hout <-]. cbn [app pending].
  split.
  { apply toggleFollow_sets_entry.
    destruct (toggleFollow p (app l)) as [o a']. cbn in *. by subst. }
  split; [reflexivity|].
  split.
  - intros id qs Hid. unfold resolve. cbn [pending app]. rewrite Hid.
    cbn. apply lookup_insert_eq.
  - intros id Hother. unfold resolve. cbn [pending app] in *.
    destruct (pending l !! id) as [q|] eqn:Hid; [|reflexivity].
    cbn [app]. apply resume_followStatus_other.
    intros qs ->. by eapply Hother.
Qed.

Lemma last_applied_update_wins_witness :
  let p := FollowBillButton (Some "u1") {| court := 193; billId := "H100" |}
             plain_props in
  let l := useEffect (Some "u1") (topicName p) empty_loop in
  let l' := (dispatch (toggleFollow p) l).2 in
  dispatch (toggleFollow p) l = (Fulfilled tt, l')
  ∧ followStatus (app l') !! topicName p
    = Some (negb (truthy (isFollowing p (app l))))
  ∧ pending l' = pending l
  ∧ (∀ id querySnapshot,
       pending l' !! id = Some (TopicQuery_then (topicName p) querySnapshot) →
       followStatus (app (resolve id l')) !! topicName p
       = Some (Boolean (TopicQuery_result querySnapshot)))
  ∧ (∀ id,
       (∀ querySnapshot,
          pending l' !! id ≠ Some (TopicQuery_then (topicName p) querySnapshot)) →
       followStatus (app (resolve id l')) !! topicName p
       = followStatus (app l') !! topicName p).
Proof.
  intros p l l'. split; [reflexivity|].
  apply (last_applied_update_wins p l l'). reflexivity.
Defined.

(** C5. Two buttons of one topic issue their status queries against the
    same store with no toggle in between: whichever response is applied
    first, the loop ends in the same state, and both buttons read the same
    boolean, the one the query computes from that store. *)
Theorem same_topic_buttons_converge (uid : option string) (p1 p2 : Props)
    (l : Loop) :
  truthy uid = true →
  topicName p1 = topicName p2 →
  let l2 := useEffect uid (topicName p2) (useEffect uid (topicName p1) l) in
  let first := issued l in
  let second := S (issued l) in
  let status := Boolean (TopicQuery uid (topicName p1) (store (app l))) in
  resolve second (resolve first l2) = resolve first (resolve second l2)
  ∧ isFollowing p1 (app (resolve second (resolve first l2))) = Some status
  ∧ isFollowing p2 (app (resolve second (resolve first l2))) = Some status
  ∧ isFollowing p1 (app (resolve first (resolve second l2))) = Some status
  ∧ isFollowing p2 (app (resolve first (resolve second l2))) = Some status.
Proof.
  intros Huid HT. rewrite <- HT. cbv zeta.
  unfold useEffect. rewrite Huid. unfold park; cbn [app pending issued].
  set (q := TopicQuery_then _ _).
  assert (Horder :
    resolve (S (issued l)) (resolve (issued l)
      {| app := app l;
         pending := <[S (issued l) := q]> (<[issued l := q]> (pending l));
         issued := S (S (issued l)) |})
    = resolve (issued l) (resolve (S (issued l))
      {| app := app l;
         pending := <[S (issued l) := q]> (<[issued l := q]> (pending l));
         issued := S (S (issued l)) |})).
  { unfold resolve; cbn [app pending issued].
    rewrite lookup_insert_eq.
    rewrite (lookup_insert_ne _ (S (issued l)) (issued l)) by lia.
    rewrite lookup_insert_eq. cbn [app pending issued].
    rewrite lookup_delete_ne by lia. rewrite lookup_insert_eq.
    rewrite lookup_delete_ne by lia.
    rewrite (lookup_insert_ne _ (S (issued l)) (issued l)) by lia.
    rewrite lookup_insert_eq. cbn [app pending issued].
    by rewrite delete_delete. }
  split; [exact Horder|].
  rewrite <- Horder.
  assert (Hread : ∀ p, topicName p = topicName p1 →
    isFollowing p (app (resolve (S (issued l)) (resolve (issued l)
      {| app := app l;
         pending := <[S (issued l) := q]> (<[issued l := q]> (pending l));
         issued := S (S (issued l)) |})))
    = Some (Boolean (TopicQuery uid (topicName p1) (store (app l))))).
  { intros p Hp. unfold isFollowing, resolve; cbn [app pending issued].
    rewrite (lookup_insert_ne _ (S (issued l)) (issued l)) by lia.
    rewrite lookup_insert_eq. cbn [app pending issued].
    rewrite lookup_delete_ne by lia. rewrite lookup_insert_eq.
    subst q. cbn. rewrite Hp. apply lookup_insert_eq. }
  repeat split; apply Hread; done.
Qed.

Lemma same_topic_buttons_converge_witness :
  let p1 := FollowBillButton (Some "u1") {| court := 193; billId := "H100" |}
              plain_props in
  let p2 := FollowingTab.BillsCard_followButton (Some "u1")
              {| court := 193; billId := "H100" |}
              FollowingTab.bill_item_props in
  let l := (dispatch (toggleFollow p1) empty_loop).2 in
  let l2 := useEffect (Some "u1") (topicName p2)
              (useEffect (Some "u1") (topicName p1) l) in
  truthy (Some "u1") = true
  ∧ topicName p1 = topicName p2
  ∧ resolve 1 (resolve 0 l2) = resolve 0 (resolve 1 l2)
  ∧ isFollowing p1 (app (resolve 1 (resolve 0 l2))) = Some true
  ∧ isFollowing p2 (app (resolve 1 (resolve 0 l2))) = Some true
  ∧ isFollowing p1 (app (resolve 0 (resolve 1 l2))) = Some true
  ∧ isFollowing p2 (app (resolve 0 (resolve 1 l2))) = Some true.
Proof.
  intros p1 p2 l l2. split; [reflexivity|]. split; [reflexivity|].
  apply (same_topic_buttons_converge (Some "u1") p1 p2 l);
    reflexivity.
Defined.

(** ** What the button shows *)

(** C7, the display contract fails: with an empty cache the bill button is
    shown with the label of the not-following state. *)
Lemma unknown_status_shows_follow :
  let p := FollowBillButton (Some "u1") {| court := 193; billId := "H100" |}
             plain_props in
  isFollowing p empty_app = None
  ∧ button (BaseFollowButton p false empty_app)
    = Some {| label := t "button.follow.follow" []; check_image := false |}
  ∧ presents (BaseFollowButton p false empty_app) false
  ∧ ¬ neutral_while_unknown p false empty_app.
Proof.
  cbv zeta.
  assert (Hshown :
    presents (BaseFollowButton
                (FollowBillButton (Some "u1")
                   {| court := 193; billId := "H100" |} plain_props)
                false empty_app) false).
  { eexists. split; reflexivity. }
  split; [reflexivity|]. split; [reflexivity|]. split; [exact Hshown|].
  intros Hclaim. exact (Hclaim eq_refl false Hshown).
Qed.

(** C7, as the code has it: while the status of its topic is unknown, the
    button renders exactly what it renders once the status is known to be
    [false]: hidden when [hide] is set, and otherwise the label of the
    not-following state without the check image; it never presents the
    following state. *)
Theorem unknown_renders_as_not_following (p : Props) (showModal : bool)
    (a : App) :
  isFollowing p a = None →
  BaseFollowButton p showModal a
    = BaseFollowButton p showModal
        (setFollowStatus (λ prev, <[topicName p := false]> prev) a).2
  ∧ ¬ presents (BaseFollowButton p showModal a) true
  ∧ (truthy (hide (rest p)) = false →
     button (BaseFollowButton p showModal a)
     = Some {| label := t "button.follow.follow" []; check_image := false |})
  ∧ (truthy (hide (rest p)) = true →
     button (BaseFollowButton p showModal a) = None)
  ∧ action (modal (BaseFollowButton p showModal a)) = "follow".
Proof.
  intros Hunknown. unfold BaseFollowButton.
  assert (Hknown :
    isFollowing p (setFollowStatus (λ prev, <[topicName p := false]> prev) a).2
    = Some false) by apply lookup_insert_eq.
  rewrite Hknown, Hunknown. cbn [truthy truthy_option truthy_bool].
  split; [reflexivity|].
  split.
  { intros (b & Hb & Hlabel). cbn [button] in Hb.
    destruct (negb _); [|discriminate Hb].
    injection Hb as <-. discriminate Hlabel. }
  split; [intros ->; reflexivity|].
  split; [intros ->; reflexivity|reflexivity].
Qed.

Lemma unknown_renders_as_not_following_witness :
  let p := FollowBillButton (Some "u1") {| court := 193; billId := "H100" |}
             plain_props in
  isFollowing p empty_app = None
  ∧ BaseFollowButton p false empty_app
    = BaseFollowButton p false
        (setFollowStatus (λ prev, <[topicName p := false]> prev) empty_app).2
  ∧ ¬ presents (BaseFollowButton p false empty_app) true
  ∧ (truthy (hide (rest p)) = false →
     button (BaseFollowButton p false empty_app)
     = Some {| label := t "button.follow.follow" []; check_image := false |})
  ∧ (truthy (hide (rest p)) = true →
     button (BaseFollowButton p false empty_app) = None)
  ∧ action (modal (BaseFollowButton p false empty_app)) = "follow".
Proof.
  intros p. split; [reflexivity|].
  apply (unknown_renders_as_not_following p false empty_app). reflexivity.
Defined.

(** ** The Following tab *)

(** Every document a query filtered on [type == "bill"] returns carries a
    [billLookup], so the bill list has one entry per document. *)
Lemma billList_length ref u s :
  length (omap billLookup (getDocs ref [where_uid u; where_type "bill"] s))
  = length (getDocs ref [where_uid u; where_type "bill"] s).
Proof.
  unfold getDocs. induction (map_to_list s) as [|[[r i] d] rest IH];
    [reflexivity|].
  cbn [omap list_omap]. destruct (bool_decide _ && _) eqn:Hkeep; [|exact IH].
  cbn [omap list_omap].
  apply andb_true_iff in Hkeep as [_ Hwheres]. cbn in Hwheres.
  apply andb_true_iff in Hwheres as [_ Htype].
  apply andb_true_iff in Htype as [Htype _].
  apply bool_decide_eq_true in Htype.
  assert (is_Some (billLookup d)) as [b Hb].
  { unfold billLookup. unfold type in Htype.
    destruct (data d); [eauto|discriminate Htype]. }
  cbn [snd]. rewrite Hb. cbn [length]. by rewrite IH.
Qed.

(** A bill response whose query was issued while the list was empty puts
    its bills in the list, whatever the list holds when it arrives. *)
Lemma bills_response_ignores_held_list (l : Loop) (id : nat)
    (querySnapshot : list Doc) :
  pending l !! id = Some (billsFollowingQuery_then [] querySnapshot) →
  omap billLookup querySnapshot ≠ [] →
  billsFollowing (app (resolve id l)) = omap billLookup querySnapshot.
Proof.
  intros Hid Hsome. unfold resolve. rewrite Hid. cbn.
  unfold FollowingTab.billsFollowingQuery_resume.
  destruct (omap billLookup querySnapshot) as [|b bs]; [done|]. reflexivity.
Qed.

(** A bill response whose query was issued while the list was populated
    changes nothing. *)
Lemma bills_response_of_populated_list (l : Loop) (id : nat) (b : BillItem)
    (held : list BillItem) (querySnapshot : list Doc) :
  pending l !! id = Some (billsFollowingQuery_then (b :: held) querySnapshot) →
  app (resolve id l) = app l.
Proof.
  intros Hid. unfold resolve. rewrite Hid. reflexivity.
Qed.

(** C10. A response of the Following tab is checked against the list its
    query captured when it was issued, not against the list held when it
    arrives.  In the session [LateResponse] the first response lists H1 and
    H2, the user unfollows H1 with the button of the bills card and
    confirms, the list is reset and refilled with H2, and the response
    issued at mount and arriving last then replaces the populated list
    [H2] by [H1; H2], with no unfollow handler in between: the tab lists a
    bill the store no longer holds. *)
Theorem late_response_replaces_populated_list :
  billsFollowing (app (resolve 0 LateResponse.mounted))
    = [LateResponse.H1; LateResponse.H2]
  ∧ FollowingTab.FollowingTab_bill_buttons LateResponse.uid
      (app LateResponse.listed) !! 0 = Some LateResponse.button_H1
  ∧ dispatch (onClick LateResponse.button_H1 false) LateResponse.listed
    = (Fulfilled true, LateResponse.listed)
  ∧ billsFollowing (app (dispatch (onConfirm LateResponse.button_H1)
                           LateResponse.listed).2) = []
  ∧ billsFollowing (app LateResponse.relisted) = [LateResponse.H2]
  ∧ pending LateResponse.relisted !! 1
    = Some (billsFollowingQuery_then []
              [follow_doc LateResponse.uid (bill_topic LateResponse.H1);
               follow_doc LateResponse.uid (bill_topic LateResponse.H2)])
  ∧ billsFollowing (app LateResponse.late)
    = [LateResponse.H1; LateResponse.H2]
  ∧ store (app LateResponse.late)
      !! ("/users/u1/activeTopicSubscriptions/", "bill-193-H1") = None.
Proof.
  split; [vm_compute; reflexivity|].
  split.
  { unfold FollowingTab.FollowingTab_bill_buttons.
    replace (billsFollowing (app LateResponse.listed))
      with [LateResponse.H1; LateResponse.H2] by (vm_compute; reflexivity).
    reflexivity. }
  split; [vm_compute; reflexivity|].
  split; [vm_compute; reflexivity|].
  split; [vm_compute; reflexivity|].
  split; [vm_compute; reflexivity|].
  split; vm_compute; reflexivity.
Qed.

(** ** The followers tabs *)

(** C8, the error contract fails for a tab that has loaded followers
    before: the tab mounts for the user u0 and lists the follower u2; the
    user id changes to u1, the effect runs again and the remote call
    rejects; the tab still lists u2. *)
Lemma rejected_call_keeps_earlier_list :
  let loaded :=
    (FollowersTab.useEffect answers_u0_only (Some "u0")
       FollowersTab.initial).2 in
  let after := (FollowersTab.useEffect answers_u0_only (Some "u1") loaded).2 in
  FollowersTab.followerIds loaded = ["u2"]
  ∧ answers_u0_only "u1" = FollowersTab.rejects "unavailable"
  ∧ FollowersTab.FollowersTab after
    = [{| profileId := "u2"; fullName := None |}]
  ∧ ¬ rejected_call_renders_empty answers_u0_only "u1" loaded.
Proof.
  cbv zeta.
  split; [reflexivity|]. split; [reflexivity|]. split; [reflexivity|].
  intros Hclaim. destruct (Hclaim "unavailable" eq_refl) as [Hempty _].
  discriminate Hempty.
Qed.

(** C8, as the code has it: when the remote call rejects, the effect of the
    Followers tab still fulfils: the error is caught and logged, the list
    of follower ids and the calls of the count setter are what they were,
    so a tab that has just mounted renders an empty list and has set no
    count. *)
Theorem followers_rpc_rejects (rpc : string → FollowersTab.GetFollowers)
    (u err : string) (s : FollowersTab.State) :
  rpc u = FollowersTab.rejects err →
  let s' := (FollowersTab.useEffect rpc (Some u) s).2 in
  let mounted := (FollowersTab.useEffect rpc (Some u) FollowersTab.initial).2 in
  (FollowersTab.useEffect rpc (Some u) s).1 = Fulfilled tt
  ∧ FollowersTab.followerIds s' = FollowersTab.followerIds s
  ∧ FollowersTab.setFollowerCount_calls s'
    = FollowersTab.setFollowerCount_calls s
  ∧ (truthy u = true →
     FollowersTab.console_error s'
     = (FollowersTab.console_error s
        ++ [("Error fetching followerIds", err)])%list)
  ∧ FollowersTab.FollowersTab mounted = []
  ∧ FollowersTab.setFollowerCount_calls mounted = [].
Proof.
  intros Hrpc. cbv zeta.
  unfold FollowersTab.useEffect, FollowersTab.fetchFollowers, try_catch,
    await, FollowersTab.getFollowers.
  rewrite Hrpc. destruct (truthy u); cbn; repeat split; done.
Qed.

Lemma followers_rpc_rejects_witness :
  let rpc := λ _ : string, FollowersTab.rejects "unavailable" in
  let s := {| FollowersTab.followerIds := ["u2"];
              FollowersTab.setFollowerCount_calls := [1];
              FollowersTab.console_error := [] |} in
  let s' := (FollowersTab.useEffect rpc (Some "u1") s).2 in
  let mounted :=
    (FollowersTab.useEffect rpc (Some "u1") FollowersTab.initial).2 in
  rpc "u1" = FollowersTab.rejects "unavailable"
  ∧ (FollowersTab.useEffect rpc (Some "u1") s).1 = Fulfilled tt
  ∧ FollowersTab.followerIds s' = ["u2"]
  ∧ FollowersTab.setFollowerCount_calls s' = [1]
  ∧ (truthy "u1" = true →
     FollowersTab.console_error s'
     = ([] ++ [("Error fetching followerIds", "unavailable")])%list)
  ∧ FollowersTab.FollowersTab mounted = []
  ∧ FollowersTab.setFollowerCount_calls mounted = [].
Proof.
  intros rpc s s' mounted. split; [reflexivity|].
  apply (followers_rpc_rejects rpc "u1" "unavailable" s). reflexivity.
Defined.

(** Collecting the followed ids reads no state and writes none. *)
Lemma collect_ids_pure (qs : list PeerFollowersTab.DocData) :
  ∃ o, ∀ s, PeerFollowersTab.collect_ids qs s = (o, s).
Proof.
  unfold PeerFollowersTab.collect_ids.
  induction qs as [|doc qs IH] using rev_ind.
  - exists (Fulfilled ∅). done.
  - destruct IH as [o Ho]. rewrite foldl_app. cbn [foldl]. unfold await at 1.
    destruct o as [ids|e].
    + destruct (PeerFollowersTab.userLookup doc) as [lookup|].
      * exists (Fulfilled (ids ∪ {[PeerFollowersTab.uid lookup]})).
        intros s. by rewrite Ho.
      * exists (Rejected "TypeError"). intros s. by rewrite Ho.
    + exists (Rejected e). intros s. by rewrite Ho.
Qed.

(** C9. For followers u2 and u3 and an own follow set {u3}, the list is
    rendered with u2 not yet followed and u3 already followed; the two
    query results land in separate cells and are joined by the render, in
    whichever order they arrive. *)
Theorem followers_joined_in_render
    (e2 e3 : PeerFollowersTab.UserElement)
    (mine : list PeerFollowersTab.DocData) (s : PeerFollowersTab.State) :
  PeerFollowersTab.profileId e2 = Some "u2" →
  PeerFollowersTab.profileId e3 = Some "u3" →
  (PeerFollowersTab.collect_ids mine PeerFollowersTab.initial).1
    = Fulfilled {[ Some "u3" ]} →
  let theirs := [ {| PeerFollowersTab.userLookup := Some e2 |};
                  {| PeerFollowersTab.userLookup := Some e3 |} ] in
  let followers_first :=
    (PeerFollowersTab.myFollows_then mine
       (PeerFollowersTab.followers_then theirs s).2).2 in
  let follows_first :=
    (PeerFollowersTab.followers_then theirs
       (PeerFollowersTab.myFollows_then mine s).2).2 in
  followers_first = follows_first
  ∧ PeerFollowersTab.followers followers_first = [Some e2; Some e3]
  ∧ PeerFollowersTab.iFollowSet followers_first = {[ Some "u3" ]}
  ∧ PeerFollowersTab.FollowersTab followers_first
    = Some [ {| PeerFollowersTab.key := Some "u2";
                PeerFollowersTab.element := e2;
                PeerFollowersTab.alreadyFollowing := false |};
             {| PeerFollowersTab.key := Some "u3";
                PeerFollowersTab.element := e3;
                PeerFollowersTab.alreadyFollowing := true |} ].
Proof.
  intros H2 H3 Hmine. cbv zeta.
  destruct (collect_ids_pure mine) as [o Ho].
  rewrite Ho in Hmine. cbn in Hmine. subst o.
  unfold PeerFollowersTab.myFollows_then, PeerFollowersTab.followers_then,
    await. rewrite !Ho. cbn.
  split; [reflexivity|]. split; [reflexivity|]. split; [reflexivity|].
  rewrite H2, H3.
  rewrite (bool_decide_eq_false_2 (Some "u2" ∈ _)) by set_solver.
  rewrite (bool_decide_eq_true_2 (Some "u3" ∈ _)) by set_solver.
  reflexivity.
Qed.

Lemma followers_joined_in_render_witness :
  let e2 := {| PeerFollowersTab.profileId := Some "u2";
               PeerFollowersTab.uid := None;
               PeerFollowersTab.fullName := None |} in
  let e3 := {| PeerFollowersTab.profileId := Some "u3";
               PeerFollowersTab.uid := None;
               PeerFollowersTab.fullName := None |} in
  let mine := [ {| PeerFollowersTab.userLookup :=
                     Some {| PeerFollowersTab.profileId := None;
                             PeerFollowersTab.uid := Some "u3";
                             PeerFollowersTab.fullName := None |} |} ] in
  let theirs := [ {| PeerFollowersTab.userLookup := Some e2 |};
                  {| PeerFollowersTab.userLookup := Some e3 |} ] in
  let followers_first :=
    (PeerFollowersTab.myFollows_then mine
       (PeerFollowersTab.followers_then theirs PeerFollowersTab.initial).2).2 in
  let follows_first :=
    (PeerFollowersTab.followers_then theirs
       (PeerFollowersTab.myFollows_then mine PeerFollowersTab.initial).2).2 in
  PeerFollowersTab.profileId e2 = Some "u2"
  ∧ PeerFollowersTab.profileId e3 = Some "u3"
  ∧ (PeerFollowersTab.collect_ids mine PeerFollowersTab.initial).1
    = Fulfilled {[ Some "u3" ]}
  ∧ followers_first = follows_first
  ∧ PeerFollowersTab.followers followers_first = [Some e2; Some e3]
  ∧ PeerFollowersTab.iFollowSet followers_first = {[ Some "u3" ]}
  ∧ PeerFollowersTab.FollowersTab followers_first
    = Some [ {| PeerFollowersTab.key := Some "u2";
                PeerFollowersTab.element := e2;
                PeerFollowersTab.alreadyFollowing := false |};
             {| PeerFollowersTab.key := Some "u3";
                PeerFollowersTab.element := e3;
                PeerFollowersTab.alreadyFollowing := true |} ].
Proof.
  intros e2 e3 mine theirs followers_first follows_first.
  split; [reflexivity|]. split; [reflexivity|].
  assert (Hmine : (PeerFollowersTab.collect_ids mine PeerFollowersTab.initial).1
                  = Fulfilled {[ Some "u3" ]}) by (vm_compute; reflexivity).
  split; [exact Hmine|].
  apply (followers_joined_in_render e2 e3 mine PeerFollowersTab.initial);
    [reflexivity | reflexivity | exact Hmine].
Defined.

(** * Further properties of the sources *)

(** ** Writes and queries of FollowingQueries.tsx *)

(** X1. Unfollowing a topic right after following it gives back the store
    as it was, when the topic had no record before. *)
Theorem unfollow_undoes_follow (d : FollowTopicData)
    (s : gmap (string * string) Doc) :
  s !! (setSubscriptionRef (FollowingQueries.uid d),
        FollowingQueries.topicName d) = None →
  unfollowTopic (FollowingQueries.uid d) (FollowingQueries.topicName d)
    (followTopic d s) = s.
Proof.
  intros Hfree. unfold unfollowTopic, followTopic, deleteDoc, setDoc.
  by apply delete_insert_id.
Qed.

Lemma unfollow_undoes_follow_witness :
  let d := follow_doc (Some "u1")
             (bill_topic {| court := 193; billId := "H100" |}) in
  let s := followTopic
             (follow_doc (Some "u2") (user_topic
                {| profileId := "u1"; fullName := None |})) ∅ in
  s !! ("/users/u1/activeTopicSubscriptions/", "bill-193-H100") = None
  ∧ unfollowTopic (Some "u1") "bill-193-H100" (followTopic d s) = s.
Proof.
  intros d s.
  assert (Hfree :
    s !! (setSubscriptionRef (FollowingQueries.uid d),
          FollowingQueries.topicName d) = None) by (vm_compute; reflexivity).
  split; [exact Hfree|].
  exact (unfollow_undoes_follow d s Hfree).
Defined.

(** X2. Writes are idempotent and the last one wins: following again with
    another payload under the same user and topic leaves only the new
    document, every other record as it was, and the store no larger;
    unfollowing twice is unfollowing once, and unfollowing a topic without
    a record changes nothing. *)
Theorem repeated_writes (d1 d2 : FollowTopicData) (uid : option string)
    (T : string) (s : gmap (string * string) Doc) :
  FollowingQueries.uid d1 = FollowingQueries.uid d2 →
  FollowingQueries.topicName d1 = FollowingQueries.topicName d2 →
  followTopic d2 (followTopic d1 s) = followTopic d2 s
  ∧ followTopic d2 (followTopic d1 s)
      !! (setSubscriptionRef (FollowingQueries.uid d2),
          FollowingQueries.topicName d2) = Some d2
  ∧ size (followTopic d2 (followTopic d1 s)) = size (followTopic d1 s)
  ∧ unfollowTopic uid T (unfollowTopic uid T s) = unfollowTopic uid T s
  ∧ (s !! (setSubscriptionRef uid, T) = None → unfollowTopic uid T s = s).
Proof.
  intros Huid HT. unfold followTopic, unfollowTopic, setDoc, deleteDoc.
  rewrite Huid, HT.
  split; [apply insert_insert_eq|].
  split; [apply lookup_insert_eq|].
  split.
  { rewrite insert_insert_eq.
    rewrite <- (insert_insert_eq s _ d2 d1) at 1.
    apply map_size_insert_Some. rewrite lookup_insert_eq. eauto. }
  split; [apply delete_delete_eq|apply delete_id].
Qed.

Lemma repeated_writes_witness :
  let d1 := follow_doc (Some "u1")
              (user_topic {| profileId := "u2"; fullName := Some "Ann" |}) in
  let d2 := follow_doc (Some "u1")
              (user_topic {| profileId := "u2"; fullName := None |}) in
  let s : gmap (string * string) Doc := ∅ in
  FollowingQueries.uid d1 = FollowingQueries.uid d2
  ∧ FollowingQueries.topicName d1 = FollowingQueries.topicName d2
  ∧ followTopic d2 (followTopic d1 s) = followTopic d2 s
  ∧ followTopic d2 (followTopic d1 s)
      !! (setSubscriptionRef (FollowingQueries.uid d2),
          FollowingQueries.topicName d2) = Some d2
  ∧ size (followTopic d2 (followTopic d1 s)) = size (followTopic d1 s)
  ∧ unfollowTopic (Some "u1") "testimony-u2"
      (unfollowTopic (Some "u1") "testimony-u2" s)
    = unfollowTopic (Some "u1") "testimony-u2" s
  ∧ (s !! (setSubscriptionRef (Some "u1"), "testimony-u2") = None →
     unfollowTopic (Some "u1") "testimony-u2" s = s).
Proof.
  intros d1 d2 s. split; [reflexivity|]. split; [reflexivity|].
  apply (repeated_writes d1 d2 (Some "u1") "testimony-u2" s); reflexivity.
Defined.

Lemma getDocs_type_org (ref u : string) (s : gmap (string * string) Doc) :
  getDocs ref [where_uid u; where_type "org"] s = [].
Proof.
  unfold getDocs. induction (map_to_list s) as [|[[r i] d] rest IH];
    [reflexivity|].
  cbn [omap list_omap]. rewrite IH.
  replace (forallb (matches (r, i, d).2) [where_uid u; where_type "org"])
    with false; [by rewrite andb_false_r|].
  cbn. rewrite (bool_decide_eq_false_2 (type_name _ = "org"));
    [by rewrite andb_false_r|].
  by destruct (type d).
Qed.

(** X3. [FollowingQuery] never returns an org: the documents the follow
    buttons write have type [bill] or [testimony], and the second query
    asks for type [org].  Its bills are exactly the [billLookup]s of the
    documents of the user's collection whose [uid] field is the user id. *)
Theorem FollowingQuery_results (uid : option string)
    (s : gmap (string * string) Doc) :
  orgs (FollowingQuery uid s) = []
  ∧ ∀ b, b ∈ bills (FollowingQuery uid s)
         ↔ ∃ id d, s !! (setSubscriptionRef uid, id) = Some d
                   ∧ FollowingQueries.uid d = Some (interpolate uid)
                   ∧ data d = BillData b.
Proof.
  unfold FollowingQuery. cbn [orgs bills]. split.
  { by rewrite getDocs_type_org. }
  intros b. rewrite list_elem_of_omap. split.
  - intros (d & Hd & Hb). apply getDocs_elem in Hd as (id & Hlook & Hw).
    cbn in Hw. apply andb_true_iff in Hw as [Hu _].
    apply bool_decide_eq_true in Hu.
    exists id, d. split; [done|]. split; [done|].
    unfold billLookup in Hb. destruct (data d); by simplify_eq.
  - intros (id & d & Hlook & Hu & Hdata). exists d. split.
    + apply getDocs_elem. exists id. split; [done|]. cbn.
      rewrite (bool_decide_eq_true_2 _ Hu). unfold type. rewrite Hdata.
      reflexivity.
    + unfold billLookup. by rewrite Hdata.
Qed.

(** ** Topic keys of FollowButton.tsx *)

Lemma no_dash_app (s1 s2 : string) :
  no_dash (s1 +:+ s2) = no_dash s1 && no_dash s2.
Proof.
  induction s1 as [|c s1 IH]; [reflexivity|].
  simpl. rewrite IH. by rewrite andb_assoc.
Qed.

Lemma string_app_cons (c : ascii) (s1 s2 : string) :
  String c s1 +:+ s2 = String c (s1 +:+ s2).
Proof. reflexivity. Qed.

Lemma string_app_assoc (s1 s2 s3 : string) :
  (s1 +:+ s2) +:+ s3 = s1 +:+ (s2 +:+ s3).
Proof.
  induction s1 as [|c s1 IH]; [reflexivity|].
  rewrite !string_app_cons. by rewrite IH.
Qed.

Lemma string_app_empty_r (s : string) : s +:+ "" = s.
Proof.
  induction s as [|c s IH]; [reflexivity|].
  rewrite string_app_cons. by rewrite IH.
Qed.

(** The decimal digits of a number hold no dash, and a positive number has
    at least one digit. *)
Lemma pretty_N_go_no_dash (x : N) (s : string) :
  ∃ digits, pretty_N_go x s = digits +:+ s
            ∧ no_dash digits = true
            ∧ ((0 < x)%N → digits ≠ "").
Proof.
  revert s. induction (N.lt_wf_0 x) as [x _ IH]. intros s.
  assert (x = 0 ∨ 0 < x)%N as [->|Hpos] by lia.
  - exists "". rewrite pretty_N_go_0. split; [done|]. split; [done|lia].
  - rewrite pretty_N_go_step by done.
    destruct (IH (x `div` 10)%N ltac:(by apply N.div_lt)
                (String (pretty_N_char (x `mod` 10)) s))
      as (digits & Heq & Hdigits & _).
    exists (digits +:+ String (pretty_N_char (x `mod` 10)) "").
    split; [|split].
    + rewrite Heq. by rewrite string_app_assoc.
    + rewrite no_dash_app, Hdigits. simpl.
      unfold pretty_N_char. by repeat case_match.
    + intros _. by destruct digits.
Qed.

(** A whole number is interpolated as its digits, after a dash when it is
    negative. *)
Lemma interpolate_number_shape (n : Z) :
  ∃ digits, no_dash digits = true ∧ digits ≠ ""
            ∧ (interpolate n = digits ∨ interpolate n = "-" +:+ digits).
Proof.
  unfold interpolate, interpolate_number, pretty, pretty_Z.
  destruct n as [|p|p].
  - exists "0". by eauto.
  - unfold pretty, pretty_positive, pretty, pretty_N.
    rewrite decide_False by done.
    destruct (pretty_N_go_no_dash (N.pos p) "") as (digits & -> & Hd & Hne).
    exists digits. rewrite string_app_empty_r.
    split; [done|]. split; [apply Hne; lia|by left].
  - unfold pretty, pretty_positive, pretty, pretty_N.
    rewrite decide_False by done.
    destruct (pretty_N_go_no_dash (N.pos p) "") as (digits & -> & Hd & Hne).
    exists digits. rewrite string_app_empty_r.
    split; [done|]. split; [apply Hne; lia|by right].
Qed.

(** Two strings that agree up to their first dash agree before and after
    it. *)
Lemma first_dash_splits (d1 d2 r1 r2 : string) :
  no_dash d1 = true → no_dash d2 = true →
  d1 +:+ "-" +:+ r1 = d2 +:+ "-" +:+ r2 →
  d1 = d2 ∧ r1 = r2.
Proof.
  revert d2. induction d1 as [|c1 d1 IH]; intros [|c2 d2] H1 H2 Heq;
    rewrite ?string_app_cons in Heq; change ("" +:+ "-" +:+ ?r) with
      (String "-" r) in Heq; cbn in H1, H2.
  - by simplify_eq.
  - injection Heq as <- _. cbn in H2.
    by rewrite bool_decide_eq_true_2 in H2.
  - injection Heq as -> _.
    by rewrite bool_decide_eq_true_2 in H1.
  - injection Heq as -> Heq.
    apply andb_true_iff in H1 as [_ H1]. apply andb_true_iff in H2 as [_ H2].
    destruct (IH d2 H1 H2 Heq) as [-> ->]. done.
Qed.

Lemma bill_key_inj (c1 c2 : Z) (b1 b2 : string) :
  interpolate c1 +:+ "-" +:+ b1 = interpolate c2 +:+ "-" +:+ b2 →
  c1 = c2 ∧ b1 = b2.
Proof.
  intros Heq.
  destruct (interpolate_number_shape c1) as (d1 & Hd1 & Hne1 & Hc1).
  destruct (interpolate_number_shape c2) as (d2 & Hd2 & Hne2 & Hc2).
  assert (interpolate c1 = interpolate c2 ∧ b1 = b2) as [Hc ->].
  { destruct Hc1 as [Hc1|Hc1], Hc2 as [Hc2|Hc2]; rewrite Hc1, Hc2 in *.
    - by apply first_dash_splits.
    - destruct d1 as [|c d1]; [done|]. cbn in Heq. injection Heq as -> _.
      cbn in Hd1. by rewrite bool_decide_eq_true_2 in Hd1.
    - destruct d2 as [|c d2]; [done|]. cbn in Heq. injection Heq as <- _.
      cbn in Hd2. by rewrite bool_decide_eq_true_2 in Hd2.
    - cbn in Heq. injection Heq as Heq.
      destruct (first_dash_splits d1 d2 b1 b2 Hd1 Hd2 Heq) as [-> ->]. done. }
  split; [|done]. by apply (inj pretty).
Qed.

(** X4. Topic keys are free of collisions: when the buttons of two topics
    whose courts are safe integers carry the same topic name, the topics
    are of the same kind and have the same subject (court and bill id, or
    profile id), so they write the same document. *)
Theorem topic_key_determines_record (uid1 uid2 uid : option string)
    (T1 T2 : Topic) (props1 props2 : BaseFollowButtonProps) :
  court_in_range T1 →
  court_in_range T2 →
  topicName (follow_button uid1 T1 props1)
    = topicName (follow_button uid2 T2 props2) →
  follow_doc uid T1 = follow_doc uid T2.
Proof.
  intros _ _.
  destruct T1 as [[c1 b1]|[p1 n1]], T2 as [[c2 b2]|[p2 n2]];
    unfold follow_doc, follow_button, FollowBillButton, FollowUserButton;
    cbn [topicName court billId profileId fullName]; intros Heq.
  - apply (inj (String.append "bill-")) in Heq.
    change (interpolate b1) with b1 in *. change (interpolate b2) with b2 in *.
    apply bill_key_inj in Heq as [-> ->]. done.
  - rewrite !string_app_cons in Heq. discriminate Heq.
  - rewrite !string_app_cons in Heq. discriminate Heq.
  - apply (inj (String.append "testimony-")) in Heq.
    change (interpolate p1) with p1 in *. change (interpolate p2) with p2 in *.
    by rewrite Heq.
Qed.

Lemma topic_key_determines_record_witness :
  let T1 := bill_topic {| court := 193; billId := "H100" |} in
  let T2 := bill_topic {| billId := "H100"; court := 193 |} in
  court_in_range T1
  ∧ court_in_range T2
  ∧ topicName (follow_button (Some "u1") T1 plain_props)
    = topicName (follow_button None T2 FollowingTab.bill_item_props)
  ∧ follow_doc (Some "u1") T1 = follow_doc (Some "u1") T2.
Proof.
  intros T1 T2.
  assert (H1 : court_in_range T1) by (cbn; unfold safe_integer; lia).
  assert (H2 : court_in_range T2) by (cbn; unfold safe_integer; lia).
  split; [exact H1|]. split; [exact H2|]. split; [reflexivity|].
  exact (topic_key_determines_record (Some "u1") None (Some "u1") T1 T2
           plain_props FollowingTab.bill_item_props H1 H2 eq_refl).
Defined.

(** ** Toggles of the follow buttons *)

(** A toggle with quiet hooks fulfils, in the follow or in the unfollow
    direction as the cache says. *)
Lemma follow_button_toggle (uid : option string) (T : Topic)
    (props : BaseFollowButtonProps) (a : App) :
  let p := follow_button uid T props in
  quiet_hook (onFollow props) →
  quiet_hook (onUnfollow props) →
  ∃ a', toggleFollow p a = (Fulfilled tt, a')
        ∧ ((truthy (isFollowing p a) = false
            ∧ store a' = followTopic (follow_doc uid T) (store a)
            ∧ followStatus a' = <[topicName p := true]> (followStatus a))
           ∨ (truthy (isFollowing p a) = true
              ∧ store a' = unfollowTopic uid (topicName p) (store a)
              ∧ followStatus a' = <[topicName p := false]> (followStatus a))).
Proof.
  intros p Hf Hu. destruct (truthy (isFollowing p a)) eqn:Hdir.
  - destruct (follow_button_unfollow uid T props a Hu Hdir)
      as (a' & Hrun & Hs & Hc).
    exists a'. split; [exact Hrun|]. right. done.
  - destruct (follow_button_follow uid T props a Hf Hdir)
      as (a' & Hrun & Hs & Hc).
    exists a'. split; [exact Hrun|]. left. done.
Qed.

Lemma follow_doc_key (uid : option string) (T : Topic)
    (props : BaseFollowButtonProps) :
  FollowingQueries.uid (follow_doc uid T) = uid
  ∧ FollowingQueries.topicName (follow_doc uid T)
    = topicName (follow_button uid T props).
Proof. split; [reflexivity|]. by destruct T. Qed.

(** X5. A toggle is a keyed update: with quiet hooks it fulfils and changes
    no cache entry but the one of its topic and no record of the store but
    the one under (user collection, topic name). *)
Theorem toggle_touches_one_topic (uid : option string) (T : Topic)
    (props : BaseFollowButtonProps) (a : App) :
  let p := follow_button uid T props in
  quiet_hook (onFollow props) →
  quiet_hook (onUnfollow props) →
  ∃ a', toggleFollow p a = (Fulfilled tt, a')
        ∧ (∀ other, other ≠ topicName p →
             followStatus a' !! other = followStatus a !! other)
        ∧ (∀ key, key ≠ (setSubscriptionRef uid, topicName p) →
             store a' !! key = store a !! key).
Proof.
  intros p Hf Hu.
  destruct (follow_button_toggle uid T props a Hf Hu)
    as (a' & Hrun & [(_ & Hs & Hc)|(_ & Hs & Hc)]);
    exists a'; (split; [exact Hrun|]); fold p in Hc; rewrite Hs, Hc.
  - split; [intros other Hne; by apply lookup_insert_ne|].
    intros key Hne. unfold followTopic, setDoc.
    destruct (follow_doc_key uid T props) as [-> ->].
    by apply lookup_insert_ne.
  - split; [intros other Hne; by apply lookup_insert_ne|].
    intros key Hne. unfold unfollowTopic, deleteDoc.
    by apply lookup_delete_ne.
Qed.

Lemma toggle_touches_one_topic_witness :
  let T := bill_topic {| court := 193; billId := "H100" |} in
  let p := follow_button (Some "u1") T FollowingTab.bill_item_props in
  quiet_hook (onFollow FollowingTab.bill_item_props)
  ∧ quiet_hook (onUnfollow FollowingTab.bill_item_props)
  ∧ ∃ a', toggleFollow p empty_app = (Fulfilled tt, a')
          ∧ (∀ other, other ≠ topicName p →
               followStatus a' !! other = followStatus empty_app !! other)
          ∧ (∀ key, key ≠ (setSubscriptionRef (Some "u1"), topicName p) →
               store a' !! key = store empty_app !! key).
Proof.
  intros T p.
  assert (Hf : quiet_hook (onFollow FollowingTab.bill_item_props))
    by (intros a; exists a; split; [reflexivity|split; reflexivity]).
  assert (Hu : quiet_hook (onUnfollow FollowingTab.bill_item_props))
    by (intros a; eexists; split; [reflexivity|split; reflexivity]).
  split; [exact Hf|]. split; [exact Hu|].
  exact (toggle_touches_one_topic (Some "u1") T
           FollowingTab.bill_item_props empty_app Hf Hu).
Defined.



(** X7. The dialog names the action that confirming performs: when the
    toggle fulfils, the cache entry of the topic becomes [true] exactly
    when the dialog rendered from the same state says [follow], and [false]
    when it says [unfollow]; a button that shows the following label always
    comes with the [unfollow] dialog. *)
Theorem dialog_names_the_toggle (p : Props) (showModal : bool) (a a' : App) :
  toggleFollow p a = (Fulfilled tt, a') →
  let view := BaseFollowButton p showModal a in
  ((action (modal view) = "follow"
    ∧ followStatus a' !! topicName p = Some true)
   ∨ (action (modal view) = "unfollow"
      ∧ followStatus a' !! topicName p = Some false))
  ∧ (presents view true → action (modal view) = "unfollow").
Proof.
  intros Hrun view. apply toggleFollow_sets_entry in Hrun.
  subst view. unfold BaseFollowButton, presents. cbn [modal action button].
  rewrite Hrun. destruct (truthy (isFollowing p a)); cbn.
  - split; [by right|done].
  - split; [by left|].
    intros (b & Hb & Hlabel).
    destruct (truthy (hide (rest p))); cbn in Hb; [discriminate Hb|].
    injection Hb as <-. cbv in Hlabel. discriminate Hlabel.
Qed.

Lemma dialog_names_the_toggle_witness :
  let p := FollowingTab.BillsCard_followButton (Some "u1")
             {| court := 193; billId := "H100" |}
             FollowingTab.bill_item_props in
  let a := (toggleFollow p empty_app).2 in
  let a' := (toggleFollow p a).2 in
  let view := BaseFollowButton p true a in
  toggleFollow p a = (Fulfilled tt, a')
  ∧ ((action (modal view) = "follow"
      ∧ followStatus a' !! topicName p = Some true)
     ∨ (action (modal view) = "unfollow"
        ∧ followStatus a' !! topicName p = Some false))
  ∧ (presents view true → action (modal view) = "unfollow").
Proof.
  intros p a a' view. split; [reflexivity|].
  apply (dialog_names_the_toggle p true a a'). reflexivity.
Defined.

(** ** The cache against the store *)

Lemma written_by_buttons_keyed (s : gmap (string * string) Doc) :
  written_by_buttons s → keyed_by_topic s.
Proof.
  intros Hs ref id d Hlook.
  destruct (Hs ref id d Hlook) as (_ & _ & -> & _). done.
Qed.

(** X8. The optimistic cache agrees with the store: on a store whose
    documents sit under their topic names, a toggle with quiet hooks leaves
    in the cache exactly the status a status query issued right afterwards
    would compute from the store. *)
Theorem toggle_agrees_with_requery (uid : option string) (T : Topic)
    (props : BaseFollowButtonProps) (a : App) :
  let p := follow_button uid T props in
  quiet_hook (onFollow props) →
  quiet_hook (onUnfollow props) →
  keyed_by_topic (store a) →
  ∃ a', toggleFollow p a = (Fulfilled tt, a')
        ∧ followStatus a' !! topicName p
          = Some (Boolean (TopicQuery uid (topicName p) (store a'))).
Proof.
  intros p Hf Hu Hkeyed.
  destruct (follow_button_toggle uid T props a Hf Hu)
    as (a' & Hrun & [(_ & Hs & Hc)|(_ & Hs & Hc)]);
    exists a'; (split; [exact Hrun|]); fold p in Hc; rewrite Hs, Hc;
    rewrite lookup_insert_eq; f_equal; symmetry.
  - subst p. destruct (follow_doc_key uid T props) as [_ <-].
    apply TopicQuery_after_follow.
  - by apply TopicQuery_after_unfollow.
Qed.

Lemma toggle_agrees_with_requery_witness :
  let T := user_topic {| profileId := "u2"; fullName := None |} in
  let p := follow_button (Some "u1") T FollowingTab.user_item_props in
  quiet_hook (onFollow FollowingTab.user_item_props)
  ∧ quiet_hook (onUnfollow FollowingTab.user_item_props)
  ∧ keyed_by_topic (store empty_app)
  ∧ ∃ a', toggleFollow p empty_app = (Fulfilled tt, a')
          ∧ followStatus a' !! topicName p
            = Some (Boolean (TopicQuery (Some "u1") (topicName p) (store a'))).
Proof.
  intros T p.
  assert (Hf : quiet_hook (onFollow FollowingTab.user_item_props))
    by (intros a; exists a; split; [reflexivity|split; reflexivity]).
  assert (Hu : quiet_hook (onUnfollow FollowingTab.user_item_props))
    by (intros a; eexists; split; [reflexivity|split; reflexivity]).
  assert (Hk : keyed_by_topic (store empty_app))
    by (intros ref id d Hlook; discriminate Hlook).
  split; [exact Hf|]. split; [exact Hu|]. split; [exact Hk|].
  exact (toggle_agrees_with_requery (Some "u1") T
           FollowingTab.user_item_props empty_app Hf Hu Hk).
Defined.

(** X9. The follow buttons keep the store in their own format: if every
    document is the one some topic's button writes, stored in the
    collection of its [uid] field under its topic name, the same holds
    after a toggle with quiet hooks. *)
Theorem toggles_keep_store_format (uid : option string) (T : Topic)
    (props : BaseFollowButtonProps) (a : App) :
  quiet_hook (onFollow props) →
  quiet_hook (onUnfollow props) →
  written_by_buttons (store a) →
  written_by_buttons (store (toggleFollow (follow_button uid T props) a).2).
Proof.
  intros Hf Hu Hwritten.
  destruct (follow_button_toggle uid T props a Hf Hu)
    as (a' & Hrun & [(_ & Hs & _)|(_ & Hs & _)]);
    rewrite Hrun; cbn [snd]; rewrite Hs; intros ref id d.
  - unfold followTopic, setDoc. rewrite lookup_insert. case_decide as Hkey.
    + injection Hkey as <- <-. intros [= <-]. exists T. done.
    + apply Hwritten.
  - unfold unfollowTopic, deleteDoc. rewrite lookup_delete.
    case_decide; [done|]. apply Hwritten.
Qed.

Lemma toggles_keep_store_format_witness :
  let T := bill_topic {| court := 193; billId := "H100" |} in
  let p := follow_button (Some "u1") T FollowingTab.bill_item_props in
  quiet_hook (onFollow FollowingTab.bill_item_props)
  ∧ quiet_hook (onUnfollow FollowingTab.bill_item_props)
  ∧ written_by_buttons (store empty_app)
  ∧ written_by_buttons (store (toggleFollow p empty_app).2).
Proof.
  intros T p.
  assert (Hf : quiet_hook (onFollow FollowingTab.bill_item_props))
    by (intros a; exists a; split; [reflexivity|split; reflexivity]).
  assert (Hu : quiet_hook (onUnfollow FollowingTab.bill_item_props))
    by (intros a; eexists; split; [reflexivity|split; reflexivity]).
  assert (Hw : written_by_buttons (store empty_app))
    by (intros ref id d Hlook; discriminate Hlook).
  split; [exact Hf|]. split; [exact Hu|]. split; [exact Hw|].
  exact (toggles_keep_store_format (Some "u1") T
           FollowingTab.bill_item_props empty_app Hf Hu Hw).
Defined.

(** Two paths with the same ending have the same beginning. *)
Lemma string_app_inj_r (s1 s2 suffix : string) :
  s1 +:+ suffix = s2 +:+ suffix → s1 = s2.
Proof.
  assert (Hlen : ∀ s t, String.length (s +:+ t)
                        = String.length s + String.length t).
  { intros s t. induction s as [|c s IH]; [reflexivity|].
    rewrite string_app_cons. cbn. by rewrite IH. }
  revert s2. induction s1 as [|c1 s1 IH]; intros [|c2 s2] Heq.
  - reflexivity.
  - apply (f_equal String.length) in Heq. rewrite !Hlen in Heq.
    cbn in Heq. lia.
  - apply (f_equal String.length) in Heq. rewrite !Hlen in Heq.
    cbn in Heq. lia.
  - rewrite !string_app_cons in Heq. injection Heq as -> Heq.
    by rewrite (IH s2 Heq).
Qed.

Lemma setSubscriptionRef_inj (uid1 uid2 : option string) :
  setSubscriptionRef uid1 = setSubscriptionRef uid2 →
  interpolate uid1 = interpolate uid2.
Proof.
  unfold setSubscriptionRef. intros Heq.
  apply (inj (String.append "/users/")) in Heq.
  by apply string_app_inj_r in Heq.
Qed.

(** X11. Users are isolated from each other: a follow or an unfollow in
    one user's collection changes the answer of no status query of a user
    whose id is written differently in the path. *)
Theorem other_users_status_unaffected (d : FollowTopicData)
    (uid2 : option string) (T T2 : string) (s : gmap (string * string) Doc) :
  interpolate (FollowingQueries.uid d) ≠ interpolate uid2 →
  Boolean (TopicQuery uid2 T2 (followTopic d s))
    = Boolean (TopicQuery uid2 T2 s)
  ∧ Boolean (TopicQuery uid2 T2 (unfollowTopic (FollowingQueries.uid d) T s))
    = Boolean (TopicQuery uid2 T2 s).
Proof.
  intros Hother.
  assert (Href : ∀ id id' : string,
    (setSubscriptionRef (FollowingQueries.uid d), id)
    ≠ (setSubscriptionRef uid2, id')).
  { intros id id' Heq. apply (f_equal fst) in Heq. cbn [fst] in Heq.
    by apply setSubscriptionRef_inj in Heq. }
  split; apply eq_iff_eq_true; rewrite !TopicQuery_truthy;
    unfold followTopic, unfollowTopic, setDoc, deleteDoc;
    split; intros (HT & id & d' & Hlook & Htopic); (split; [exact HT|]);
    exists id, d'; (split; [|exact Htopic]).
  - by rewrite lookup_insert_ne in Hlook.
  - by rewrite lookup_insert_ne.
  - by rewrite lookup_delete_ne in Hlook.
  - by rewrite lookup_delete_ne.
Qed.

Lemma other_users_status_unaffected_witness :
  let d := follow_doc (Some "u1")
             (bill_topic {| court := 193; billId := "H100" |}) in
  let s := followTopic (follow_doc (Some "u2")
             (bill_topic {| court := 193; billId := "H100" |})) ∅ in
  interpolate (FollowingQueries.uid d) ≠ interpolate (Some "u2")
  ∧ Boolean (TopicQuery (Some "u2") "bill-193-H100" (followTopic d s))
    = Boolean (TopicQuery (Some "u2") "bill-193-H100" s)
  ∧ Boolean (TopicQuery (Some "u2") "bill-193-H100"
               (unfollowTopic (FollowingQueries.uid d) "bill-193-H100" s))
    = Boolean (TopicQuery (Some "u2") "bill-193-H100" s).
Proof.
  intros d s.
  assert (Hother : interpolate (FollowingQueries.uid d)
                   ≠ interpolate (Some "u2")) by discriminate.
  split; [exact Hother|].
  exact (other_users_status_unaffected d (Some "u2") "bill-193-H100"
           "bill-193-H100" s Hother).
Defined.

(** ** Fetches of the Following tab *)

Lemma bills_of_snapshot (ref u : string) (s : gmap (string * string) Doc)
    (b : BillItem) :
  b ∈ omap billLookup (getDocs ref [where_uid u; where_type "bill"] s)
  ↔ ∃ id d, s !! (ref, id) = Some d
            ∧ FollowingQueries.uid d = Some u ∧ data d = BillData b.
Proof.
  rewrite list_elem_of_omap. split.
  - intros (d & Hd & Hb). apply getDocs_elem in Hd as (id & Hlook & Hw).
    cbn in Hw. apply andb_true_iff in Hw as [Hu _].
    apply bool_decide_eq_true in Hu.
    exists id, d. split; [done|]. split; [done|].
    unfold billLookup in Hb. destruct (data d); by simplify_eq.
  - intros (id & d & Hlook & Hu & Hdata). exists d. split.
    + apply getDocs_elem. exists id. split; [done|]. cbn.
      rewrite (bool_decide_eq_true_2 _ Hu). unfold type. rewrite Hdata.
      reflexivity.
    + unfold billLookup. by rewrite Hdata.
Qed.

Lemma users_of_snapshot (ref u : string) (s : gmap (string * string) Doc)
    (user : UserItem) :
  user ∈ omap userLookup
           (getDocs ref [where_uid u; where_type "testimony"] s)
  ↔ ∃ id d, s !! (ref, id) = Some d
            ∧ FollowingQueries.uid d = Some u ∧ data d = ProfileData user.
Proof.
  rewrite list_elem_of_omap. split.
  - intros (d & Hd & Hb). apply getDocs_elem in Hd as (id & Hlook & Hw).
    cbn in Hw. apply andb_true_iff in Hw as [Hu _].
    apply bool_decide_eq_true in Hu.
    exists id, d. split; [done|]. split; [done|].
    unfold userLookup in Hb. destruct (data d); by simplify_eq.
  - intros (id & d & Hlook & Hu & Hdata). exists d. split.
    + apply getDocs_elem. exists id. split; [done|]. cbn.
      rewrite (bool_decide_eq_true_2 _ Hu). unfold type. rewrite Hdata.
      reflexivity.
    + unfold userLookup. by rewrite Hdata.
Qed.

(** With a user id, the bill query of the tab is parked with the held list
    and the snapshot of the user's bills. *)
Lemma billsFollowingQuery_parks (u : string) (l : Loop) :
  truthy u = true →
  FollowingTab.billsFollowingQuery (Some u) l
  = park (billsFollowingQuery_then (billsFollowing (app l))
            (getDocs (setSubscriptionRef (Some u))
               [where_uid u; where_type "bill"] (store (app l)))) l.
Proof.
  intros Hu. unfold FollowingTab.billsFollowingQuery,
    FollowingTab.subscriptionRef.
  change (truthy (Some u)) with (truthy u). by rewrite Hu.
Qed.

Lemma orgsFollowingQuery_parks (u : string) (l : Loop) :
  truthy u = true →
  FollowingTab.orgsFollowingQuery (Some u) l
  = park (orgsFollowingQuery_then (usersFollowing (app l))
            (getDocs (setSubscriptionRef (Some u))
               [where_uid u; where_type "testimony"] (store (app l)))) l.
Proof.
  intros Hu. unfold FollowingTab.orgsFollowingQuery,
    FollowingTab.subscriptionRef.
  change (truthy (Some u)) with (truthy u). by rewrite Hu.
Qed.

(** A bill response issued on an empty list leaves the bills of its
    snapshot in the list. *)
Lemma bills_response_on_empty_list (held : list BillItem)
    (querySnapshot : list Doc) (a : App) :
  held = [] → billsFollowing a = [] →
  billsFollowing
    (FollowingTab.billsFollowingQuery_resume held querySnapshot a).2
  = omap billLookup querySnapshot.
Proof.
  intros -> Hempty. unfold FollowingTab.billsFollowingQuery_resume.
  destruct (omap billLookup querySnapshot) as [|b bs]; cbn; done.
Qed.

(** X12. The first fetch of the Following tab lists exactly the bills of
    the signed-in user: with an empty list, the response of the bill query
    leaves in the list the [billLookup]s of the documents of the user's
    collection that carry the user id, which is also what [FollowingQuery]
    returns as [bills]. *)
Theorem tab_lists_stored_bills (u : string) (l : Loop) :
  truthy u = true →
  billsFollowing (app l) = [] →
  let l' := resolve (issued l) (FollowingTab.billsFollowingQuery (Some u) l) in
  billsFollowing (app l') = bills (FollowingQuery (Some u) (store (app l)))
  ∧ ∀ b, b ∈ billsFollowing (app l')
         ↔ ∃ id d, store (app l) !! (setSubscriptionRef (Some u), id) = Some d
                   ∧ FollowingQueries.uid d = Some u
                   ∧ data d = BillData b.
Proof.
  intros Hu Hempty. cbv zeta. rewrite (billsFollowingQuery_parks u l Hu).
  unfold resolve, park. cbn [pending app issued].
  rewrite lookup_insert_eq. cbn [app resume]. rewrite Hempty.
  rewrite bills_response_on_empty_list by done.
  split; [reflexivity|]. intros b. apply bills_of_snapshot.
Qed.

Lemma tab_lists_stored_bills_witness :
  let l := {| app := with_store
                (followTopic (follow_doc (Some "u1")
                   (bill_topic {| court := 193; billId := "H100" |})))
                empty_app;
              pending := ∅; issued := 0 |} in
  let l' := resolve (issued l)
              (FollowingTab.billsFollowingQuery (Some "u1") l) in
  truthy "u1" = true
  ∧ billsFollowing (app l) = []
  ∧ billsFollowing (app l') = bills (FollowingQuery (Some "u1") (store (app l)))
  ∧ ∀ b, b ∈ billsFollowing (app l')
         ↔ ∃ id d, store (app l) !! (setSubscriptionRef (Some "u1"), id)
                   = Some d
                   ∧ FollowingQueries.uid d = Some "u1"
                   ∧ data d = BillData b.
Proof.
  intros l l'. split; [reflexivity|]. split; [reflexivity|].
  apply (tab_lists_stored_bills "u1" l); reflexivity.
Defined.

Lemma users_response_on_empty_list (held : list UserItem)
    (querySnapshot : list Doc) (a : App) :
  held = [] → usersFollowing a = [] →
  usersFollowing
    (FollowingTab.orgsFollowingQuery_resume held querySnapshot a).2
  = omap userLookup querySnapshot.
Proof.
  intros -> Hempty. unfold FollowingTab.orgsFollowingQuery_resume.
  destruct (omap userLookup querySnapshot) as [|b bs]; cbn; done.
Qed.

Lemma bills_response_keeps_users (held : list BillItem)
    (querySnapshot : list Doc) (a : App) :
  usersFollowing
    (FollowingTab.billsFollowingQuery_resume held querySnapshot a).2
  = usersFollowing a.
Proof.
  unfold FollowingTab.billsFollowingQuery_resume. by destruct (_ && _).
Qed.

Lemma bills_response_keeps_status (held : list BillItem)
    (querySnapshot : list Doc) (a : App) :
  followStatus
    (FollowingTab.billsFollowingQuery_resume held querySnapshot a).2
  = followStatus a.
Proof.
  unfold FollowingTab.billsFollowingQuery_resume. by destruct (_ && _).
Qed.

Lemma users_response_keeps_bills (held : list UserItem)
    (querySnapshot : list Doc) (a : App) :
  billsFollowing
    (FollowingTab.orgsFollowingQuery_resume held querySnapshot a).2
  = billsFollowing a.
Proof.
  unfold FollowingTab.orgsFollowingQuery_resume. by destruct (_ && _).
Qed.

(** X13. What is followed with a button shows up in the Following tab: after
    a follow of a bill or of a user by the signed-in user, a tab whose
    lists are empty runs its effects, and once the first bill response and
    the user response have arrived the bill is in the bills list, or the
    user's lookup in the users list. *)
Theorem followed_topic_enters_list (u : string) (T : Topic)
    (props : BaseFollowButtonProps) (l : Loop) :
  let p := follow_button (Some u) T props in
  let l1 := (dispatch (toggleFollow p) l).2 in
  let l2 := FollowingTab.useEffects (Some u) l1 in
  let l3 := resolve (S (S (issued l1))) (resolve (issued l1) l2) in
  truthy u = true →
  quiet_hook (onFollow props) →
  truthy (isFollowing p (app l)) = false →
  billsFollowing (app l1) = [] →
  usersFollowing (app l1) = [] →
  match T with
  | bill_topic item => item ∈ billsFollowing (app l3)
  | user_topic item =>
      {| profileId := profileId item; fullName := None |}
        ∈ usersFollowing (app l3)
  end.
Proof.
  intros p l1 l2 l3 Hu Hq Hnot Hbills Husers.
  destruct (follow_button_follow (Some u) T props (app l) Hq Hnot)
    as (a1 & Hrun & Hs & _).
  assert (Happ : app l1 = a1).
  { subst l1. unfold dispatch. cbn [snd app]. fold p in Hrun.
    by rewrite Hrun. }
  assert (Hdoc : store (app l1)
                   !! (setSubscriptionRef (Some u),
                       FollowingQueries.topicName (follow_doc (Some u) T))
                 = Some (follow_doc (Some u) T)).
  { rewrite Happ, Hs. apply lookup_insert_eq. }
  assert (Hl3 :
    billsFollowing (app l3)
      = omap billLookup (getDocs (setSubscriptionRef (Some u))
                           [where_uid u; where_type "bill"] (store (app l1)))
    ∧ usersFollowing (app l3)
      = omap userLookup (getDocs (setSubscriptionRef (Some u))
                           [where_uid u; where_type "testimony"]
                           (store (app l1)))).
  { subst l3 l2. unfold FollowingTab.useEffects,
      FollowingTab.fetchFollowedItems, FollowingTab.useEffect_every_render.
    change (truthy (Some u)) with (truthy u). rewrite Hu.
    rewrite !billsFollowingQuery_parks, orgsFollowingQuery_parks by done.
    unfold resolve, park. cbn [pending app issued].
    rewrite (lookup_insert_ne _ (S (S (issued l1))) (issued l1)) by lia.
    rewrite (lookup_insert_ne _ (S (issued l1)) (issued l1)) by lia.
    rewrite lookup_insert_eq. cbn [pending app issued resume].
    rewrite lookup_delete_ne by lia. rewrite lookup_insert_eq.
    cbn [app resume].
    rewrite users_response_keeps_bills, users_response_on_empty_list;
      [|done|by rewrite bills_response_keeps_users].
    by rewrite Hbills, bills_response_on_empty_list. }
  destruct Hl3 as [Hb Hus].
  destruct T as [item|item].
  - rewrite Hb. apply bills_of_snapshot. eexists _, _.
    split; [exact Hdoc|]. split; [reflexivity|]. by destruct item.
  - rewrite Hus. apply users_of_snapshot. eexists _, _.
    split; [exact Hdoc|]. split; reflexivity.
Qed.

Lemma followed_topic_enters_list_witness :
  let T := user_topic {| profileId := "u2"; fullName := Some "Ann" |} in
  let p := follow_button (Some "u1") T plain_props in
  let l1 := (dispatch (toggleFollow p) empty_loop).2 in
  let l2 := FollowingTab.useEffects (Some "u1") l1 in
  let l3 := resolve (S (S (issued l1))) (resolve (issued l1) l2) in
  truthy "u1" = true
  ∧ quiet_hook (onFollow plain_props)
  ∧ truthy (isFollowing p (app empty_loop)) = false
  ∧ billsFollowing (app l1) = []
  ∧ usersFollowing (app l1) = []
  ∧ {| profileId := "u2"; fullName := None |} ∈ usersFollowing (app l3).
Proof.
  intros T p l1 l2 l3.
  assert (Hq : quiet_hook (onFollow plain_props))
    by (intros a; exists a; split; [reflexivity|split; reflexivity]).
  split; [reflexivity|]. split; [exact Hq|]. split; [reflexivity|].
  split; [reflexivity|]. split; [reflexivity|].
  exact (followed_topic_enters_list "u1" T plain_props empty_loop
           eq_refl Hq eq_refl eq_refl eq_refl).
Defined.

(** X14. What is unfollowed in the Following tab stays away: on a store
    in the format of the buttons, confirming the unfollow of a bill in the
    bills card deletes its record, resets the list and clears the cache
    entry, and the response of the next bill query does not list the bill
    again. *)
Theorem unfollowed_bill_leaves_list (u : string) (item : BillItem)
    (l : Loop) :
  let p := FollowingTab.BillsCard_followButton (Some u) item
             FollowingTab.bill_item_props in
  let l1 := (dispatch (onConfirm p) l).2 in
  let l2 := resolve (issued l1)
              (FollowingTab.billsFollowingQuery (Some u) l1) in
  truthy u = true →
  written_by_buttons (store (app l)) →
  truthy (isFollowing p (app l)) = true →
  (dispatch (onConfirm p) l).1 = Fulfilled false
  ∧ store (app l1) !! (setSubscriptionRef (Some u), topicName p) = None
  ∧ billsFollowing (app l1) = []
  ∧ followStatus (app l2) !! topicName p = Some false
  ∧ item ∉ billsFollowing (app l2).
Proof.
  intros p l1 l2 Hu Hwritten Hfollowing.
  assert (Hrun : onConfirm p (app l)
    = (Fulfilled false,
       {| store := unfollowTopic (Some u) (topicName p) (store (app l));
          followStatus := <[topicName p := false]> (followStatus (app l));
          billsFollowing := [];
          usersFollowing := usersFollowing (app l) |})).
  { unfold onConfirm, await, toggleFollow. rewrite Hfollowing. reflexivity. }
  assert (Happ : app l1
    = {| store := unfollowTopic (Some u) (topicName p) (store (app l));
         followStatus := <[topicName p := false]> (followStatus (app l));
         billsFollowing := [];
         usersFollowing := usersFollowing (app l) |}).
  { subst l1. unfold dispatch. cbn [snd app]. by rewrite Hrun. }
  split; [unfold dispatch; cbn [fst]; by rewrite Hrun|].
  split; [rewrite Happ; apply lookup_delete_eq|].
  split; [by rewrite Happ|].
  assert (Hl2 : app l2
    = (FollowingTab.billsFollowingQuery_resume []
         (getDocs (setSubscriptionRef (Some u))
            [where_uid u; where_type "bill"] (store (app l1))) (app l1)).2).
  { subst l2. rewrite billsFollowingQuery_parks by done.
    unfold resolve, park. cbn [pending app issued].
    rewrite lookup_insert_eq. cbn [app resume]. by rewrite Happ. }
  split.
  { rewrite Hl2, bills_response_keeps_status, Happ.
    apply lookup_insert_eq. }
  rewrite Hl2, bills_response_on_empty_list by (by rewrite ?Happ).
  intros Hin. apply bills_of_snapshot in Hin as (id & d & Hlook & _ & Hdata).
  rewrite Happ in Hlook. cbn [store] in Hlook.
  unfold unfollowTopic, deleteDoc in Hlook.
  assert (Hid : id = topicName p).
  { apply lookup_delete_Some in Hlook as [_ Hlook].
    destruct (Hwritten _ _ _ Hlook) as (T & Hd & -> & _).
    rewrite Hd in Hdata |- *. destruct T as [item'|item'];
      [|discriminate Hdata].
    cbn in Hdata. injection Hdata as <-. by destruct item'. }
  subst id. by rewrite lookup_delete_eq in Hlook.
Qed.

Lemma unfollowed_bill_leaves_list_witness :
  let item := {| court := 193; billId := "H100" |} in
  let p := FollowingTab.BillsCard_followButton (Some "u1") item
             FollowingTab.bill_item_props in
  let l := (dispatch (toggleFollow p) empty_loop).2 in
  let l1 := (dispatch (onConfirm p) l).2 in
  let l2 := resolve (issued l1)
              (FollowingTab.billsFollowingQuery (Some "u1") l1) in
  truthy "u1" = true
  ∧ written_by_buttons (store (app l))
  ∧ truthy (isFollowing p (app l)) = true
  ∧ (dispatch (onConfirm p) l).1 = Fulfilled false
  ∧ store (app l1) !! (setSubscriptionRef (Some "u1"), topicName p) = None
  ∧ billsFollowing (app l1) = []
  ∧ followStatus (app l2) !! topicName p = Some false
  ∧ item ∉ billsFollowing (app l2).
Proof.
  intros item p l l1 l2.
  assert (Hw : written_by_buttons (store (app l))).
  { intros ref id d. change (store (app l))
      with (followTopic (follow_doc (Some "u1") (bill_topic item)) ∅).
    unfold followTopic, setDoc. rewrite lookup_insert. case_decide as Hkey.
    - injection Hkey as <- <-. intros [= <-]. exists (bill_topic item). done.
    - intros Hlook. discriminate Hlook. }
  split; [reflexivity|]. split; [exact Hw|]. split; [reflexivity|].
  exact (unfollowed_bill_leaves_list "u1" item l eq_refl Hw eq_refl).
Defined.

(** X15. No response empties a list: whatever query resolves, a populated
    bills list stays populated and a populated users list stays populated;
    only the unfollow hooks of the tab reset them. *)
Theorem responses_never_empty_a_list (id : nat) (l : Loop) :
  (billsFollowing (app l) ≠ [] → billsFollowing (app (resolve id l)) ≠ [])
  ∧ (usersFollowing (app l) ≠ [] → usersFollowing (app (resolve id l)) ≠ []).
Proof.
  unfold resolve. destruct (pending l !! id) as [q|]; [|done].
  cbn [app]. destruct q as [T qs|held qs|held qs]; cbn; [done|..].
  - unfold FollowingTab.billsFollowingQuery_resume.
    destruct (bool_decide _ && negb (bool_decide _)) eqn:Hguard; [|done].
    cbn. split; [|done]. intros _.
    apply andb_true_iff in Hguard as [_ Hnonempty].
    apply negb_true_iff, bool_decide_eq_false in Hnonempty.
    intros Hnil. by rewrite Hnil in Hnonempty.
  - unfold FollowingTab.orgsFollowingQuery_resume.
    destruct (bool_decide _ && negb (bool_decide _)) eqn:Hguard; [|done].
    cbn. split; [done|]. intros _.
    apply andb_true_iff in Hguard as [_ Hnonempty].
    apply negb_true_iff, bool_decide_eq_false in Hnonempty.
    intros Hnil. by rewrite Hnil in Hnonempty.
Qed.

(** ** The cards *)

(** X16. In the users card rendered for a list of profile ids, every row is
    the spinner while the profile of its follower loads and otherwise
    carries the follow button of that follower's topic; a click on such a
    button while the follower is followed only opens the dialog and leaves
    the client state as it is. *)
Theorem users_card_rows (usePublicProfile : string → FollowableItemsCard.UseAsync)
    (uid : option string) (className : option string) (title : string)
    (subtitle : option string) (s : FollowersTab.State) (i : nat)
    (row : FollowableItemsCard.Row) :
  let card := FollowableItemsCard.UsersCard usePublicProfile uid className
                title subtitle (FollowersTab.FollowersTab s) in
  FollowableItemsCard.rows card !! i = Some (Some i, row) →
  ∃ follower,
    FollowersTab.followerIds s !! i = Some follower
    ∧ match row with
      | FollowableItemsCard.Spinner =>
          FollowableItemsCard.loading (usePublicProfile follower) = true
      | FollowableItemsCard.ItemRow content p =>
          FollowableItemsCard.loading (usePublicProfile follower) = false
          ∧ topicName p = "testimony-" +:+ follower
          ∧ FollowableItemsCard.href content = "/profile?id=" +:+ follower
          ∧ ∀ showModal a,
              truthy (isFollowing p a) = true →
              onClick p showModal a = (Fulfilled true, a)
      end.
Proof.
  intros card. subst card.
  unfold FollowableItemsCard.UsersCard,
    FollowableItemsCard.FollowableItemsCardWith,
    FollowableItemsCard.FollowableItemsCard, FollowersTab.FollowersTab.
  cbn [FollowableItemsCard.rows]. rewrite list_lookup_imap, list_lookup_fmap.
  destruct (FollowersTab.followerIds s !! i) as [follower|];
    [|discriminate]. cbn. intros [= <-]. exists follower. split; [done|].
  unfold FollowableItemsCard.UsersCard_ItemCard,
    FollowableItemsCard.FollowableItemCard. cbn [profileId].
  destruct (FollowableItemsCard.loading (usePublicProfile follower));
    [done|].
  split; [done|]. split; [done|]. split; [done|].
  intros showModal a Hfollowing. unfold onClick, wantsConfirm.
  rewrite Hfollowing. reflexivity.
Qed.

Lemma users_card_rows_witness :
  let usePublicProfile := λ _ : string,
    {| FollowableItemsCard.result :=
         Some {| FollowableItemsCard.profile_profileImage := None;
                 FollowableItemsCard.profile_fullName := Some "Ann" |};
       FollowableItemsCard.loading := false |} in
  let s := {| FollowersTab.followerIds := ["u2"; "u3"];
              FollowersTab.setFollowerCount_calls := [2];
              FollowersTab.console_error := [] |} in
  let card := FollowableItemsCard.UsersCard usePublicProfile (Some "u1")
                None "Followers" None (FollowersTab.FollowersTab s) in
  let row := FollowableItemsCard.UsersCard_ItemCard usePublicProfile
               (Some "u1") {| profileId := "u3"; fullName := None |} in
  FollowableItemsCard.rows card !! 1 = Some (Some 1, row)
  ∧ ∃ follower,
      FollowersTab.followerIds s !! 1 = Some follower
      ∧ match row with
        | FollowableItemsCard.Spinner =>
            FollowableItemsCard.loading (usePublicProfile follower) = true
        | FollowableItemsCard.ItemRow content p =>
            FollowableItemsCard.loading (usePublicProfile follower) = false
            ∧ topicName p = "testimony-" +:+ follower
            ∧ FollowableItemsCard.href content = "/profile?id=" +:+ follower
            ∧ ∀ showModal a,
                truthy (isFollowing p a) = true →
                onClick p showModal a = (Fulfilled true, a)
        end.
Proof.
  intros usePublicProfile s card row. split; [reflexivity|].
  apply (users_card_rows usePublicProfile (Some "u1") None "Followers" None
           s 1 row).
  reflexivity.
Defined.

Lemma imap_snd_map {A B C} (f : nat → A → C * B) (h : A → B) (l : list A) :
  (∀ i x, (f i x).2 = h x) → map snd (imap f l) = map h l.
Proof.
  revert f. induction l as [|x l IH]; intros f Hf; [reflexivity|].
  cbn. rewrite Hf. f_equal. apply IH. intros i y. apply Hf.
Qed.

Lemma imap_fst_seq {A B C} (f : nat → A → C * B) (g : nat → C) (l : list A)
    (start : nat) :
  (∀ i x, (f i x).1 = g (start + i)) →
  map fst (imap f l) = map g (seq start (length l)).
Proof.
  revert f start. induction l as [|x l IH]; intros f start Hf; [reflexivity|].
  cbn. rewrite Hf, Nat.add_0_r. f_equal. apply IH.
  intros i y. unfold compose. rewrite Hf. f_equal. lia.
Qed.

(** X17. The two revisions of the users card render the same rows: for
    items without props of their own, the card built from an item component
    and the later card built with two maps show the same title, the same
    subtitle and, row by row, the same spinner or the same content and
    follow button; only the keys differ, the index in the first and none in
    the second. *)
Theorem users_card_revisions_agree
    (usePublicProfile : string → FollowableItemsCard.UseAsync)
    (uid : option string) (className : option string) (title : string)
    (subtitle : option string) (items : list UserItem) :
  let first := FollowableItemsCard.UsersCard usePublicProfile uid className
                 title subtitle items in
  let later := FollowableItemsCardRevised.UsersCard usePublicProfile uid
                 className title subtitle
                 (map (λ item, (item, plain_props)) items) in
  FollowableItemsCard.title first = FollowableItemsCard.title later
  ∧ FollowableItemsCard.subtitle first = FollowableItemsCard.subtitle later
  ∧ FollowableItemsCard.className first = FollowableItemsCard.className later
  ∧ map snd (FollowableItemsCard.rows first)
    = map snd (FollowableItemsCard.rows later)
  ∧ map fst (FollowableItemsCard.rows first)
    = map Some (seq 0 (length items))
  ∧ map fst (FollowableItemsCard.rows later)
    = replicate (length items) None.
Proof.
  cbv zeta. split; [reflexivity|]. split; [reflexivity|].
  split; [reflexivity|].
  unfold FollowableItemsCard.UsersCard,
    FollowableItemsCard.FollowableItemsCardWith,
    FollowableItemsCard.FollowableItemsCard,
    FollowableItemsCardRevised.UsersCard,
    FollowableItemsCardRevised.createFollowableItemsCard.
  cbn [FollowableItemsCard.rows].
  split; [|split].
  - rewrite (imap_snd_map _
               (FollowableItemsCard.UsersCard_ItemCard usePublicProfile uid))
      by done.
    induction items as [|item items IH]; [reflexivity|].
    cbn [map]. rewrite IH. reflexivity.
  - by apply imap_fst_seq.
  - induction items as [|item items IH]; [reflexivity|].
    cbn [map length replicate fst]. by rewrite IH.
Qed.

(** ** The followers tabs, beyond the rejected call *)

(** X18. When the remote call answers, the Followers tab shows one row per
    follower id of the answer, in the answer's order, and reports their
    number to the count setter exactly once; nothing is logged.  Without a
    user id, or with an empty one, the remote call is not made and nothing
    changes. *)
Theorem followers_rpc_answers (rpc : string → FollowersTab.GetFollowers)
    (u : string) (data : list string) (s : FollowersTab.State) :
  truthy u = true →
  rpc u = FollowersTab.response data →
  let s' := (FollowersTab.useEffect rpc (Some u) s).2 in
  (FollowersTab.useEffect rpc (Some u) s).1 = Fulfilled tt
  ∧ map profileId (FollowersTab.FollowersTab s') = data
  ∧ FollowersTab.setFollowerCount_calls s'
    = (FollowersTab.setFollowerCount_calls s
       ++ [length (FollowersTab.FollowersTab s')])%list
  ∧ FollowersTab.console_error s' = FollowersTab.console_error s
  ∧ FollowersTab.useEffect rpc None s = (Fulfilled tt, s)
  ∧ FollowersTab.useEffect rpc (Some "") s = (Fulfilled tt, s).
Proof.
  intros Hu Hrpc. cbv zeta.
  unfold FollowersTab.useEffect, FollowersTab.fetchFollowers, try_catch,
    await, FollowersTab.getFollowers.
  rewrite Hu, Hrpc. cbn.
  split; [reflexivity|]. unfold FollowersTab.FollowersTab.
  cbn [FollowersTab.followerIds].
  split.
  { rewrite map_map. cbn. apply map_id. }
  split; [by rewrite length_map|]. done.
Qed.

Lemma followers_rpc_answers_witness :
  let rpc := λ _ : string, FollowersTab.response ["u2"; "u3"] in
  let s' := (FollowersTab.useEffect rpc (Some "u1") FollowersTab.initial).2 in
  truthy "u1" = true
  ∧ rpc "u1" = FollowersTab.response ["u2"; "u3"]
  ∧ (FollowersTab.useEffect rpc (Some "u1") FollowersTab.initial).1
    = Fulfilled tt
  ∧ map profileId (FollowersTab.FollowersTab s') = ["u2"; "u3"]
  ∧ FollowersTab.setFollowerCount_calls s'
    = (FollowersTab.setFollowerCount_calls FollowersTab.initial
       ++ [length (FollowersTab.FollowersTab s')])%list
  ∧ FollowersTab.console_error s'
    = FollowersTab.console_error FollowersTab.initial
  ∧ FollowersTab.useEffect rpc None FollowersTab.initial
    = (Fulfilled tt, FollowersTab.initial)
  ∧ FollowersTab.useEffect rpc (Some "") FollowersTab.initial
    = (Fulfilled tt, FollowersTab.initial).
Proof.
  intros rpc s'. split; [reflexivity|]. split; [reflexivity|].
  apply (followers_rpc_answers rpc "u1" ["u2"; "u3"] FollowersTab.initial);
    reflexivity.
Defined.



Lemma await_run {S A B} (m : Async S A) (k : A → Async S B) (s : S) :
  await m k s = match m s with
                | (Fulfilled a, s') => k a s'
                | (Rejected e, s') => (Rejected e, s')
                end.
Proof. reflexivity. Qed.

(** What collecting the followed ids returns: the set of the [uid]s when
    every document has a [userLookup], and a rejection otherwise. *)
Lemma collect_ids_cases (qs : list PeerFollowersTab.DocData)
    (s : PeerFollowersTab.State) :
  (Forall (λ doc, is_Some (PeerFollowersTab.userLookup doc)) qs
   ∧ ∃ ids, PeerFollowersTab.collect_ids qs s = (Fulfilled ids, s)
            ∧ ∀ x, x ∈ ids
                   ↔ ∃ doc lookup, doc ∈ qs
                       ∧ PeerFollowersTab.userLookup doc = Some lookup
                       ∧ PeerFollowersTab.uid lookup = x)
  ∨ (Exists (λ doc, PeerFollowersTab.userLookup doc = None) qs
     ∧ PeerFollowersTab.collect_ids qs s = (Rejected "TypeError", s)).
Proof.
  unfold PeerFollowersTab.collect_ids.
  induction qs as [|doc qs IH] using rev_ind.
  - left. split; [constructor|]. exists ∅. split; [done|].
    intros x. split; [set_solver|]. intros (doc & _ & Hin & _).
    by apply not_elem_of_nil in Hin.
  - rewrite foldl_app. cbn [foldl]. rewrite !await_run.
    destruct IH as [(Hall & ids & -> & Hids)|(Hex & ->)].
    + destruct (PeerFollowersTab.userLookup doc) as [lookup|] eqn:Hdoc.
      * left. split.
        { apply Forall_app. split; [done|]. constructor; [|constructor].
          by rewrite Hdoc. }
        exists (ids ∪ {[PeerFollowersTab.uid lookup]}). split; [done|].
        intros x. rewrite elem_of_union, elem_of_singleton, Hids. split.
        -- intros [(doc' & lookup' & Hin & Hl & Hx)| ->].
           ++ exists doc', lookup'. split; [|done].
              apply elem_of_app. by left.
           ++ exists doc, lookup. split; [|done].
              apply elem_of_app. right. apply list_elem_of_here.
        -- intros (doc' & lookup' & Hin & Hl & Hx).
           apply elem_of_app in Hin as [Hin|Hin].
           ++ left. eauto.
           ++ apply list_elem_of_singleton in Hin as ->.
              rewrite Hdoc in Hl. injection Hl as <-. by right.
      * right. split; [|done]. apply Exists_app. right. by constructor.
    + right. split; [|done]. apply Exists_app. by left.
Qed.

(** X20. The own follow set is replaced only by a complete answer: when
    every document of the snapshot has a [userLookup], the set becomes the
    set of their [uid]s and the list of followers stays; when one document
    has none, the effect rejects and the state is what it was. *)
Theorem myFollows_complete_or_nothing (qs : list PeerFollowersTab.DocData)
    (s : PeerFollowersTab.State) :
  (Forall (λ doc, is_Some (PeerFollowersTab.userLookup doc)) qs →
   (PeerFollowersTab.myFollows_then qs s).1 = Fulfilled tt
   ∧ PeerFollowersTab.followers (PeerFollowersTab.myFollows_then qs s).2
     = PeerFollowersTab.followers s
   ∧ ∀ x, x ∈ PeerFollowersTab.iFollowSet
                (PeerFollowersTab.myFollows_then qs s).2
          ↔ ∃ doc lookup, doc ∈ qs
              ∧ PeerFollowersTab.userLookup doc = Some lookup
              ∧ PeerFollowersTab.uid lookup = x)
  ∧ (Exists (λ doc, PeerFollowersTab.userLookup doc = None) qs →
     PeerFollowersTab.myFollows_then qs s = (Rejected "TypeError", s)).
Proof.
  unfold PeerFollowersTab.myFollows_then, await.
  destruct (collect_ids_cases qs s)
    as [(Hall & ids & -> & Hids)|(Hex & ->)].
  - split; [intros _; cbn; done|].
    intros Hex. apply Exists_exists in Hex as (doc & Hin & Hnone).
    rewrite Forall_forall in Hall.
    destruct (Hall doc Hin) as [lookup Hl]. congruence.
  - split; [|done]. intros Hall.
    apply Exists_exists in Hex as (doc & Hin & Hnone).
    rewrite Forall_forall in Hall.
    destruct (Hall doc Hin) as [lookup Hl]. congruence.
Qed.

(** X21. The list of followers is rendered completely or not at all: the
    render fails exactly when a follower element is absent, and otherwise
    gives one item per follower, in order, keyed by the profile id and
    marked as already followed exactly when the profile id is in the own
    follow set. *)
Theorem followers_render (s : PeerFollowersTab.State) :
  (PeerFollowersTab.FollowersTab s = None
   ↔ None ∈ PeerFollowersTab.followers s)
  ∧ ∀ items, PeerFollowersTab.FollowersTab s = Some items →
      PeerFollowersTab.followers s
        = map (λ item, Some (PeerFollowersTab.element item)) items
      ∧ Forall (λ item,
          PeerFollowersTab.key item
            = PeerFollowersTab.profileId (PeerFollowersTab.element item)
          ∧ PeerFollowersTab.alreadyFollowing item
            = bool_decide
                (PeerFollowersTab.profileId (PeerFollowersTab.element item)
                 ∈ PeerFollowersTab.iFollowSet s)) items.
Proof.
  unfold PeerFollowersTab.FollowersTab.
  generalize (PeerFollowersTab.iFollowSet s) as ids.
  induction (PeerFollowersTab.followers s) as [|e es IH]; intros ids.
  - split.
    + split; [discriminate|]. intros Hin. by apply not_elem_of_nil in Hin.
    + intros items [= <-]. split; [done|constructor].
  - destruct (IH ids) as [IHnone IHsome]. cbn [mapM].
    destruct e as [element|].
    + cbn. destruct (mapM _ es) as [items|] eqn:Hes; cbn.
      * split.
        { split; [discriminate|]. intros Hin.
          apply elem_of_cons in Hin as [Hin|Hin]; [discriminate|].
          apply IHnone in Hin. discriminate. }
        intros items' [= <-]. destruct (IHsome items eq_refl) as [-> Hall].
        split; [done|]. constructor; [done|exact Hall].
      * split; [|discriminate]. split; [|done]. intros _.
        apply elem_of_cons. right. by apply IHnone.
    + cbn. split; [|discriminate]. split; [|done]. intros _.
      apply list_elem_of_here.
Qed.

(** ** Effects on mount *)

(** X22. Mounting a follow button resolves the status from the store: with
    a user id, on a store whose documents sit under their topic names, the
    response of the status query issued by the effect sets the cache entry
    of a non-empty topic name to whether the user's collection held a
    record under that name when the query was issued, and changes neither
    another entry nor the store. *)
Theorem mount_resolves_status (uid : option string) (T : string) (l : Loop) :
  truthy uid = true →
  T ≠ "" →
  keyed_by_topic (store (app l)) →
  let l' := resolve (issued l) (useEffect uid T l) in
  followStatus (app l') !! T
    = Some (bool_decide
              (is_Some (store (app l) !! (setSubscriptionRef uid, T))))
  ∧ (∀ other, other ≠ T →
       followStatus (app l') !! other = followStatus (app l) !! other)
  ∧ store (app l') = store (app l).
Proof.
  intros Huid HT Hkeyed. cbv zeta. unfold useEffect. rewrite Huid.
  unfold resolve, park. cbn [pending app issued].
  rewrite lookup_insert_eq. cbn.
  split; [|split; [intros other Hne; by apply lookup_insert_ne|done]].
  rewrite lookup_insert_eq. f_equal.
  fold (TopicQuery uid T (store (app l))).
  apply eq_iff_eq_true. rewrite TopicQuery_truthy, bool_decide_eq_true.
  split.
  - intros (_ & id & d & Hlook & Htopic).
    rewrite <- Htopic. rewrite (Hkeyed _ _ _ Hlook). eauto.
  - intros [d Hlook]. split; [done|]. exists T, d. split; [done|].
    by apply (Hkeyed _ _ _ Hlook).
Qed.

Lemma mount_resolves_status_witness :
  let l := (dispatch
              (toggleFollow
                 (FollowBillButton (Some "u1")
                    {| court := 193; billId := "H100" |} plain_props))
              empty_loop).2 in
  let l' := resolve (issued l) (useEffect (Some "u1") "bill-193-H100" l) in
  truthy (Some "u1") = true
  ∧ "bill-193-H100" ≠ ""
  ∧ keyed_by_topic (store (app l))
  ∧ followStatus (app l') !! "bill-193-H100"
    = Some (bool_decide
              (is_Some (store (app l)
                          !! (setSubscriptionRef (Some "u1"),
                              "bill-193-H100"))))
  ∧ (∀ other, other ≠ "bill-193-H100" →
       followStatus (app l') !! other = followStatus (app l) !! other)
  ∧ store (app l') = store (app l).
Proof.
  intros l l'.
  assert (Hk : keyed_by_topic (store (app l))).
  { intros ref id d. change (store (app l))
      with (followTopic (follow_doc (Some "u1")
              (bill_topic {| court := 193; billId := "H100" |})) ∅).
    unfold followTopic, setDoc. rewrite lookup_insert. case_decide as Hkey.
    - injection Hkey as <- <-. by intros [= <-].
    - intros Hlook. discriminate Hlook. }
  split; [reflexivity|]. split; [discriminate|]. split; [exact Hk|].
  exact (mount_resolves_status (Some "u1") "bill-193-H100" l
           eq_refl ltac:(discriminate) Hk).
Defined.

(** What the effects of a render park, with a user id. *)
Lemma tab_render_issues_three_queries_parked (u : string) (l : Loop) :
  truthy u = true →
  let l' := FollowingTab.useEffects (Some u) l in
  app l' = app l
  ∧ pending l' !! issued l
    = Some (billsFollowingQuery_then (billsFollowing (app l))
              (getDocs (setSubscriptionRef (Some u))
                 [where_uid u; where_type "bill"] (store (app l))))
  ∧ pending l' !! S (issued l)
    = Some (billsFollowingQuery_then (billsFollowing (app l))
              (getDocs (setSubscriptionRef (Some u))
                 [where_uid u; where_type "bill"] (store (app l))))
  ∧ pending l' !! S (S (issued l))
    = Some (orgsFollowingQuery_then (usersFollowing (app l))
              (getDocs (setSubscriptionRef (Some u))
                 [where_uid u; where_type "testimony"] (store (app l)))).
Proof.
  intros Hu. cbv zeta.
  unfold FollowingTab.useEffects, FollowingTab.fetchFollowedItems,
    FollowingTab.useEffect_every_render.
  change (truthy (Some u)) with (truthy u). rewrite Hu.
  rewrite !billsFollowingQuery_parks, orgsFollowingQuery_parks by done.
  unfold park. cbn [pending app issued].
  split; [done|].
  split.
  { rewrite !lookup_insert_ne by lia. apply lookup_insert_eq. }
  split.
  { rewrite lookup_insert_ne by lia. apply lookup_insert_eq. }
  apply lookup_insert_eq.
Qed.

(** X23. A render of the Following tab with a new list issues the bill
    query twice and the user query once, all three with the lists and the
    store of that render; without a user id, or with an empty one, it
    issues nothing. *)
Theorem tab_render_issues_three_queries (u : string) (l : Loop) :
  truthy u = true →
  let l' := FollowingTab.useEffects (Some u) l in
  let bills_query :=
    billsFollowingQuery_then (billsFollowing (app l))
      (getDocs (setSubscriptionRef (Some u))
         [where_uid u; where_type "bill"] (store (app l))) in
  let users_query :=
    orgsFollowingQuery_then (usersFollowing (app l))
      (getDocs (setSubscriptionRef (Some u))
         [where_uid u; where_type "testimony"] (store (app l))) in
  app l' = app l
  ∧ issued l' = 3 + issued l
  ∧ pending l' !! issued l = Some bills_query
  ∧ pending l' !! S (issued l) = Some bills_query
  ∧ pending l' !! S (S (issued l)) = Some users_query
  ∧ (∀ id, id < issued l → pending l' !! id = pending l !! id)
  ∧ FollowingTab.useEffects None l = l
  ∧ FollowingTab.useEffects (Some "") l = l.
Proof.
  intros Hu. cbv zeta.
  unfold FollowingTab.useEffects, FollowingTab.fetchFollowedItems,
    FollowingTab.useEffect_every_render.
  change (truthy (Some u)) with (truthy u). rewrite Hu.
  rewrite !billsFollowingQuery_parks, orgsFollowingQuery_parks by done.
  unfold park. cbn [pending app issued].
  split; [done|]. split; [done|].
  split.
  { rewrite !lookup_insert_ne by lia. apply lookup_insert_eq. }
  split.
  { rewrite lookup_insert_ne by lia. apply lookup_insert_eq. }
  split; [apply lookup_insert_eq|].
  split; [|done].
  intros id Hid. by rewrite !lookup_insert_ne by lia.
Qed.

Lemma tab_render_issues_three_queries_witness :
  let l := empty_loop in
  let l' := FollowingTab.useEffects (Some "u1") l in
  truthy "u1" = true
  ∧ app l' = app l
  ∧ issued l' = 3 + issued l
  ∧ pending l' !! issued l = Some (billsFollowingQuery_then [] [])
  ∧ pending l' !! S (issued l) = Some (billsFollowingQuery_then [] [])
  ∧ pending l' !! S (S (issued l)) = Some (orgsFollowingQuery_then [] [])
  ∧ (∀ id, id < issued l → pending l' !! id = pending l !! id)
  ∧ FollowingTab.useEffects None l = l
  ∧ FollowingTab.useEffects (Some "") l = l.
Proof.
  intros l l'. split; [reflexivity|].
  apply (tab_render_issues_three_queries "u1" l). reflexivity.
Defined.

(** X24. A populated Following tab comes to rest: when both lists hold
    something, the three queries a render issues change nothing when their
    responses arrive, so no response starts another render. *)
Theorem populated_tab_is_quiet (u : string) (l : Loop) (id : nat) :
  truthy u = true →
  billsFollowing (app l) ≠ [] →
  usersFollowing (app l) ≠ [] →
  issued l ≤ id < 3 + issued l →
  app (resolve id (FollowingTab.useEffects (Some u) l)) = app l.
Proof.
  intros Hu Hbills Husers Hid.
  destruct (tab_render_issues_three_queries_parked u l Hu)
    as (Happ & H0 & H1 & H2).
  assert (id = issued l ∨ id = S (issued l) ∨ id = S (S (issued l)))
    as [->|[->| ->]] by lia; unfold resolve.
  - rewrite H0. cbn [app resume]. rewrite Happ.
    unfold FollowingTab.billsFollowingQuery_resume.
    destruct (billsFollowing (app l)); [done|reflexivity].
  - rewrite H1. cbn [app resume]. rewrite Happ.
    unfold FollowingTab.billsFollowingQuery_resume.
    destruct (billsFollowing (app l)); [done|reflexivity].
  - rewrite H2. cbn [app resume]. rewrite Happ.
    unfold FollowingTab.orgsFollowingQuery_resume.
    destruct (usersFollowing (app l)); [done|reflexivity].
Qed.

Lemma populated_tab_is_quiet_witness :
  let l := {| app := {| store := ∅; followStatus := ∅;
                        billsFollowing := [{| court := 193; billId := "H1" |}];
                        usersFollowing :=
                          [{| profileId := "u2"; fullName := None |}] |};
              pending := ∅; issued := 0 |} in
  truthy "u1" = true
  ∧ billsFollowing (app l) ≠ []
  ∧ usersFollowing (app l) ≠ []
  ∧ issued l ≤ 1 < 3 + issued l
  ∧ app (resolve 1 (FollowingTab.useEffects (Some "u1") l)) = app l.
Proof.
  intros l.
  assert (Hb : billsFollowing (app l) ≠ []) by discriminate.
  assert (Hus : usersFollowing (app l) ≠ []) by discriminate.
  assert (Hid : issued l ≤ 1 < 3 + issued l) by (cbn; lia).
  split; [reflexivity|]. split; [exact Hb|]. split; [exact Hus|].
  split; [exact Hid|].
  exact (populated_tab_is_quiet "u1" l 1 eq_refl Hb Hus Hid).
Defined.
